(** * SiteSettingsContext: the settings synchronizer of the storefront

    A shallow embedding of [client/src/contexts/SiteSettingsContext.tsx].

    - JavaScript values are an inductive type; objects are finite maps from
      property names to values.
    - Asynchronous functions are programs in a state-and-exception monad over
      a [World]: the remote document store, the two browser storages, the
      React state cell of the provider and a trace of the observable calls
      (remote requests, console output, alerts).  A rejected promise is a
      thrown outcome.  Every operation runs to completion before the next
      one starts; interleavings of pending promises are not modelled.
    - The province table of [../data/shippingProvinces], the clock and
      [btoa] are parameters of the provider section; the store client of
      [../lib/firebase] is modelled from its description in the
      specification. *)

From Stdlib Require Import Ascii Floats.SpecFloat.
From stdpp Require Import gmap strings list fin_maps pretty.

Set Warnings "-register-all".

(** ** JavaScript values *)

Module JS.

(** Numbers are only stored and tested for truthiness by this code, never
    computed with, so the IEEE-754 datum is carried as it is. *)
Inductive value : Type :=
  | VUndef
  | VNull
  | VBool (b : bool)
  | VNum (x : spec_float)
  | VStr (s : string)
  | VArr (l : list value)
  | VObj (m : gmap string value).

Definition num (z : Z) : value :=
  match z with
  | Z0 => VNum (S754_zero false)
  | Zpos p => VNum (S754_finite false p 0)
  | Zneg p => VNum (S754_finite true p 0)
  end.

(** [if (v)], and the left operand of [||]. *)
Definition truthy (v : value) : bool :=
  match v with
  | VUndef | VNull => false
  | VBool b => b
  | VNum (S754_zero _) | VNum S754_nan => false
  | VNum _ => true
  | VStr s => negb (bool_decide (s = ""))
  | VArr _ | VObj _ => true
  end.

(** [a || b] *)
Definition or_else (a b : value) : value := if truthy a then a else b.

Fixpoint chars (s : string) : list value :=
  match s with
  | EmptyString => []
  | String c s' => VStr (String c EmptyString) :: chars s'
  end.

Definition indexed (l : list value) : gmap string value :=
  list_to_map (imap (λ i v, (pretty i, v)) l).

(** The own enumerable properties of a value: what [{...v}] copies. *)
Definition own_props (v : value) : gmap string value :=
  match v with
  | VObj m => m
  | VArr l => indexed l
  | VStr s => indexed (chars s)
  | VUndef | VNull | VBool _ | VNum _ => ∅
  end.

(** [v.k] for a [v] that is neither [null] nor [undefined] and a property
    name [k] that is not built in (the source reads only the four
    sub-object names, and only of a truthy payload): an own property, or
    [undefined]. *)
Definition get_prop (v : value) (k : string) : value :=
  default VUndef (own_props v !! k).

(** [{...a, ...b}]: the properties of [b] win. *)
Definition spread (a b : value) : value := VObj (own_props b ∪ own_props a).

(** [{...a, k: v}] *)
Definition spread_set (a : value) (k : string) (v : value) : value :=
  VObj (<[k := v]> (own_props a)).

(** [s === v] where [s] is a string: no coercion, so only an equal string
    is equal. *)
Definition strict_eq_string (s : string) (v : value) : bool :=
  match v with
  | VStr t => bool_decide (s = t)
  | _ => false
  end.

End JS.
Import JS.

(** ** The remote document store

    [readData], [writeData] and [watchData] come from [../lib/firebase].
    The store is a tree of values addressed by slash-separated paths. *)

Module Firebase.

Definition path := list string.

(** Modelled from the spec: the "point read of a path" of the store behind
    [../lib/firebase].  The value stored at a path; an absent location reads
    as [null]. *)
Fixpoint get_at (p : path) (root : value) : value :=
  match p with
  | [] => root
  | k :: p' =>
      match root with
      | VObj m => match m !! k with
                  | Some v => get_at p' v
                  | None => VNull
                  end
      | _ => VNull
      end
  end.

(** Modelled from the spec: the "point write of a path with a value" of the
    store behind [../lib/firebase].  Replaces the value stored at a path,
    creating the locations on the way. *)
Fixpoint set_at (p : path) (v : value) (root : value) : value :=
  match p with
  | [] => v
  | k :: p' =>
      let m := match root with VObj m => m | _ => ∅ end in
      VObj (<[k := set_at p' v (default VNull (m !! k))]> m)
  end.

(** Modelled from the spec: the paths of the store, [siteSettings],
    [siteSettings/passwordProtection/password] and so on.  ['a/b/c'] names
    the location under [a], then [b], then [c]. *)
Fixpoint segments_from (acc s : string) : path :=
  match s with
  | EmptyString => if bool_decide (acc = "") then [] else [acc]
  | String c s' =>
      if bool_decide (c = "/"%char)
      then (if bool_decide (acc = "") then segments_from "" s'
            else acc :: segments_from "" s')
      else segments_from (acc +:+ String c EmptyString) s'
  end.
Definition segments (s : string) : path := segments_from "" s.

(** Modelled from the spec: what a read returns, "existence + value". *)
Record DataSnapshot := { val : value }.

(** Modelled from the spec: [snapshot.exists()], the existence part of a
    read.  A location that holds nothing reads as [null]. *)
Definition snapshot_exists (s : DataSnapshot) : bool :=
  match val s with VNull => false | _ => true end.

End Firebase.
Import Firebase.

(** ** The world the provider runs in *)

Inductive js_error := Err (msg : string).

Inductive event :=
  | RemoteRead (p : string) (failure : option js_error)
  | RemoteWrite (p : string) (v : value) (failure : option js_error)
  | RemoteWatch (p : string)
  | ConsoleLog (args : list string)
  | ConsoleError (msg : string) (error : js_error)
  | Alert (msg : string).

Record SiteSettings := {
  countdownSettings : value;
  passwordProtection : value;
  shippingSettings : value;
  socialMedia : value;
  isUnlocked : bool;
  isAdmin : bool;
  isLoading : bool;
  currency : string;
}.

(** [{...prev, field: x}] for each field the source assigns. *)
Definition with_countdownSettings (x : value) (s : SiteSettings) :=
  {| countdownSettings := x; passwordProtection := passwordProtection s;
     shippingSettings := shippingSettings s; socialMedia := socialMedia s;
     isUnlocked := isUnlocked s; isAdmin := isAdmin s;
     isLoading := isLoading s; currency := currency s |}.
Definition with_passwordProtection (x : value) (s : SiteSettings) :=
  {| countdownSettings := countdownSettings s; passwordProtection := x;
     shippingSettings := shippingSettings s; socialMedia := socialMedia s;
     isUnlocked := isUnlocked s; isAdmin := isAdmin s;
     isLoading := isLoading s; currency := currency s |}.
Definition with_shippingSettings (x : value) (s : SiteSettings) :=
  {| countdownSettings := countdownSettings s;
     passwordProtection := passwordProtection s;
     shippingSettings := x; socialMedia := socialMedia s;
     isUnlocked := isUnlocked s; isAdmin := isAdmin s;
     isLoading := isLoading s; currency := currency s |}.
Definition with_socialMedia (x : value) (s : SiteSettings) :=
  {| countdownSettings := countdownSettings s;
     passwordProtection := passwordProtection s;
     shippingSettings := shippingSettings s; socialMedia := x;
     isUnlocked := isUnlocked s; isAdmin := isAdmin s;
     isLoading := isLoading s; currency := currency s |}.
Definition with_isUnlocked (x : bool) (s : SiteSettings) :=
  {| countdownSettings := countdownSettings s;
     passwordProtection := passwordProtection s;
     shippingSettings := shippingSettings s; socialMedia := socialMedia s;
     isUnlocked := x; isAdmin := isAdmin s;
     isLoading := isLoading s; currency := currency s |}.
Definition with_isAdmin (x : bool) (s : SiteSettings) :=
  {| countdownSettings := countdownSettings s;
     passwordProtection := passwordProtection s;
     shippingSettings := shippingSettings s; socialMedia := socialMedia s;
     isUnlocked := isUnlocked s; isAdmin := x;
     isLoading := isLoading s; currency := currency s |}.
Definition with_isLoading (x : bool) (s : SiteSettings) :=
  {| countdownSettings := countdownSettings s;
     passwordProtection := passwordProtection s;
     shippingSettings := shippingSettings s; socialMedia := socialMedia s;
     isUnlocked := isUnlocked s; isAdmin := isAdmin s;
     isLoading := x; currency := currency s |}.

Record World := {
  (** root of the remote document store *)
  remote : value;
  (** what the next remote requests will meet: [Some e] rejects the request
      with [e]; [None], or a schedule that has run out, lets it through *)
  faults : list (option js_error);
  sessionStorage : gmap string string;
  localStorage : gmap string string;
  (** the state cell of [useState<SiteSettings>] *)
  state : SiteSettings;
  (** [new Date().getTime()] *)
  clock : Z;
  (** the successive values of [Math.random().toString(36).substr(2, 9)] *)
  rng : list string;
  (** the observable calls so far, oldest first *)
  trace : list event;
}.

Definition with_remote (x : value) (w : World) :=
  {| remote := x; faults := faults w; sessionStorage := sessionStorage w;
     localStorage := localStorage w; state := state w; clock := clock w;
     rng := rng w; trace := trace w |}.
Definition with_faults (x : list (option js_error)) (w : World) :=
  {| remote := remote w; faults := x; sessionStorage := sessionStorage w;
     localStorage := localStorage w; state := state w; clock := clock w;
     rng := rng w; trace := trace w |}.
Definition with_sessionStorage (x : gmap string string) (w : World) :=
  {| remote := remote w; faults := faults w; sessionStorage := x;
     localStorage := localStorage w; state := state w; clock := clock w;
     rng := rng w; trace := trace w |}.
Definition with_localStorage (x : gmap string string) (w : World) :=
  {| remote := remote w; faults := faults w;
     sessionStorage := sessionStorage w; localStorage := x;
     state := state w; clock := clock w; rng := rng w; trace := trace w |}.
Definition with_state (x : SiteSettings) (w : World) :=
  {| remote := remote w; faults := faults w;
     sessionStorage := sessionStorage w; localStorage := localStorage w;
     state := x; clock := clock w; rng := rng w; trace := trace w |}.
Definition with_rng (x : list string) (w : World) :=
  {| remote := remote w; faults := faults w;
     sessionStorage := sessionStorage w; localStorage := localStorage w;
     state := state w; clock := clock w; rng := x; trace := trace w |}.
Definition emit (e : event) (w : World) :=
  {| remote := remote w; faults := faults w;
     sessionStorage := sessionStorage w; localStorage := localStorage w;
     state := state w; clock := clock w; rng := rng w;
     trace := trace w ++ [e] |}.

(** The failure the next remote request meets, if any. *)
Definition next_fault (w : World) : option js_error :=
  match faults w with
  | f :: _ => f
  | [] => None
  end.

(** ** Programs: state passing with exceptions *)

Inductive Outcome (A : Type) :=
  | Returned (a : A)
  | Thrown (e : js_error).
Arguments Returned {A} a.
Arguments Thrown {A} e.

Definition Prog (A : Type) : Type := World → Outcome A * World.

#[global] Instance Prog_ret : MRet Prog := λ A a w, (Returned a, w).

#[global] Instance Prog_bind : MBind Prog := λ A B f m w,
  match m w with
  | (Returned a, w') => f a w'
  | (Thrown e, w') => (Thrown e, w')
  end.

(** [try { body } catch (error) { handler }] *)
Definition try_catch {A} (body : Prog A) (handler : js_error → Prog A) : Prog A :=
  λ w, match body w with
       | (Thrown e, w') => handler e w'
       | r => r
       end.

(** [promise.catch(handler)] on a promise of no value. *)
Definition catch (body : Prog ()) (handler : js_error → Prog ()) : Prog () :=
  try_catch body handler.

Definition perform (f : World → World) : Prog () := λ w, (Returned (), f w).

Definition console_log (args : list string) : Prog () :=
  perform (emit (ConsoleLog args)).
Definition console_error (msg : string) (error : js_error) : Prog () :=
  perform (emit (ConsoleError msg error)).
Definition alert (msg : string) : Prog () := perform (emit (Alert msg)).

(** [setSettings(prev => f(prev))] *)
Definition setSettings (f : SiteSettings → SiteSettings) : Prog () :=
  perform (λ w, with_state (f (state w)) w).

Definition sessionStorage_getItem (k : string) : Prog (option string) :=
  λ w, (Returned (sessionStorage w !! k), w).
Definition sessionStorage_setItem (k v : string) : Prog () :=
  perform (λ w, with_sessionStorage (<[k := v]> (sessionStorage w)) w).
Definition localStorage_getItem (k : string) : Prog (option string) :=
  λ w, (Returned (localStorage w !! k), w).
Definition localStorage_setItem (k v : string) : Prog () :=
  perform (λ w, with_localStorage (<[k := v]> (localStorage w)) w).
Definition localStorage_removeItem (k : string) : Prog () :=
  perform (λ w, with_localStorage (delete k (localStorage w)) w).

Definition getTime : Prog Z := λ w, (Returned (clock w), w).
Definition random36 : Prog string :=
  λ w, match rng w with
       | r :: rs => (Returned r, with_rng rs w)
       | [] => (Returned "", w)
       end.

(** Modelled from the spec: [readData] of [../lib/firebase], a "point read of
    a path returning existence + value".  The request either is rejected or
    resolves to a snapshot of the value stored at the path. *)
Definition readData (p : string) : Prog DataSnapshot :=
  λ w, let w' := with_faults (tail (faults w)) w in
       match next_fault w with
       | Some e => (Thrown e, emit (RemoteRead p (Some e)) w')
       | None => (Returned {| val := get_at (segments p) (remote w) |},
                  emit (RemoteRead p None) w')
       end.

(** Modelled from the spec: [writeData] of [../lib/firebase], a "point write
    of a path with a value".  A rejected write leaves the store as it was. *)
Definition writeData (p : string) (v : value) : Prog () :=
  λ w, let w' := with_faults (tail (faults w)) w in
       match next_fault w with
       | Some e => (Thrown e, emit (RemoteWrite p v (Some e)) w')
       | None => (Returned (),
                  emit (RemoteWrite p v None)
                    (with_remote (set_at (segments p) v (remote w)) w'))
       end.

(** Modelled from the spec: [watchData] of [../lib/firebase],
    "subscribe-to-path"; the registration itself.  The live values are
    delivered later, one call of the handler each. *)
Definition watchData (p : string) : Prog () := perform (emit (RemoteWatch p)).

(** ** The provider *)

Section Provider.

(** [shippingProvinces] of [../data/shippingProvinces]. *)
Variable shippingProvinces : list value.
(** [Date.now()] when the module is loaded, and [Date.prototype.toISOString]. *)
Variable loadTime : Z.
Variable toISOString : Z → string.
(** [window.btoa] *)
Variable btoa : string → string.

Definition defaultCountdownSettings : value :=
  VObj (<["enabled" := VBool true]>
       (<["targetDate" := VStr (toISOString (loadTime + 7 * 24 * 60 * 60 * 1000))]>
       (<["title" := VStr "Next Drop Coming Soon"]> ∅))).

Definition defaultPasswordProtection : value :=
  VObj (<["enabled" := VBool true]>
       (<["password" := VStr "password123"]> ∅)).

Definition defaultShippingSettings : value :=
  VObj (<["provinces" := VArr shippingProvinces]>
       (<["freeShippingThreshold" := num 5000]>
       (<["minPrice" := num 300]>
       (<["maxPrice" := num 800]> ∅)))).

Definition defaultSocialMedia : value :=
  VObj (<["instagram" := VStr "https://instagram.com/drp"]>
       (<["twitter" := VStr "https://twitter.com/drp"]>
       (<["facebook" := VStr "https://facebook.com/drp"]>
       (<["youtube" := VStr "https://youtube.com/drp"]>
       (<["tiktok" := VStr "https://tiktok.com/@drp"]>
       (<["enabled" := VBool true]> ∅)))))).

Definition defaultSettings : SiteSettings :=
  {| countdownSettings := defaultCountdownSettings;
     passwordProtection := defaultPasswordProtection;
     shippingSettings := defaultShippingSettings;
     socialMedia := defaultSocialMedia;
     isUnlocked := false;
     isAdmin := false;
     isLoading := true;
     currency := "DZD" |}.

(** The object literal written by the seed. *)
Definition initialDocument : value :=
  VObj (<["countdownSettings" := countdownSettings defaultSettings]>
       (<["passwordProtection" := passwordProtection defaultSettings]>
       (<["shippingSettings" := shippingSettings defaultSettings]>
       (<["socialMedia" := socialMedia defaultSettings]> ∅)))).

Definition initializeSettings : Prog () :=
  snapshot ← readData "siteSettings";
  if negb (snapshot_exists snapshot) then
    writeData "siteSettings" initialDocument;;
    console_log ["Initialized default settings in Firebase"]
  else mret ().

(** The callback given to [watchData('siteSettings', ...)]. *)
Definition onSiteSettings (data : value) : Prog () :=
  if truthy data then
    setSettings (λ prev,
      with_isLoading false
        (with_socialMedia
           (or_else (get_prop data "socialMedia") (socialMedia defaultSettings))
        (with_shippingSettings
           (or_else (get_prop data "shippingSettings") (shippingSettings defaultSettings))
        (with_passwordProtection
           (or_else (get_prop data "passwordProtection") (passwordProtection defaultSettings))
        (with_countdownSettings
           (or_else (get_prop data "countdownSettings") (countdownSettings defaultSettings))
           prev)))))
  else
    setSettings (λ prev, with_isLoading false prev).

(** The body of the mount effect, [useEffect(..., [])]. *)
Definition mountEffect : Prog () :=
  catch initializeSettings
    (λ error, console_error "Error initializing settings:" error);;
  watchData "siteSettings";;
  storedUnlockStatus ← sessionStorage_getItem "siteUnlocked";
  (if bool_decide (storedUnlockStatus = Some "true")
   then setSettings (λ prev, with_isUnlocked true prev)
   else mret ());;
  adminStatus ← localStorage_getItem "adminLoggedIn";
  (if bool_decide (adminStatus = Some "true")
   then setSettings (λ prev, with_isAdmin true prev)
   else mret ()).

(** A fresh start of the provider: [useState(defaultSettings)], then the
    mount effect.  The storages and the store are what they were. *)
Definition mount : Prog () :=
  perform (with_state defaultSettings);;
  mountEffect.

Definition unlockSite (password : string) : Prog bool :=
  try_catch
    (snapshot ← readData "siteSettings/passwordProtection/password";
     let correctPassword := val snapshot in
     if strict_eq_string password correctPassword then
       now ← getTime;
       r ← random36;
       let simpleToken := btoa (pretty now +:+ "_" +:+ r) in
       sessionStorage_setItem "siteUnlocked" "true";;
       sessionStorage_setItem "authToken" simpleToken;;
       setSettings (λ prev, with_isUnlocked true prev);;
       mret true
     else mret false)
    (λ error,
       console_error "Error unlocking site with Firebase:" error;;
       mret false).

Definition togglePasswordProtection (enabled : bool) : Prog () :=
  try_catch
    (writeData "siteSettings/passwordProtection/enabled" (VBool enabled);;
     console_log ["Password protection " +:+
                  (if enabled then "enabled" else "disabled") +:+
                  " in Firebase"];;
     setSettings (λ prev,
       with_passwordProtection
         (spread_set (passwordProtection prev) "enabled" (VBool enabled))
         prev))
    (λ error,
       console_error "Error toggling password protection:" error;;
       alert "Error updating password protection setting. Please try again.").

Definition changePassword (newPassword : string) : Prog () :=
  try_catch
    (console_log ["Updating password in Firebase to:"; newPassword];;
     writeData "siteSettings/passwordProtection/password" (VStr newPassword);;
     console_log ["Password updated in Firebase"];;
     setSettings (λ prev,
       with_passwordProtection
         (spread_set (passwordProtection prev) "password" (VStr newPassword))
         prev);;
     alert "Password updated successfully!")
    (λ error,
       console_error "Error changing password:" error;;
       alert "Error changing password. Please try again.").

(** The three sub-object updates read [settings], the state as of the
    render that created the closure, and have no [try]. *)
Definition updateCountdownSettings (settings : SiteSettings) (newSettings : value) : Prog () :=
  let updatedSettings := spread (countdownSettings settings) newSettings in
  writeData "siteSettings/countdownSettings" updatedSettings;;
  setSettings (λ prev, with_countdownSettings updatedSettings prev).

Definition updateShippingSettings (settings : SiteSettings) (newSettings : value) : Prog () :=
  let updatedSettings := spread (shippingSettings settings) newSettings in
  writeData "siteSettings/shippingSettings" updatedSettings;;
  setSettings (λ prev, with_shippingSettings updatedSettings prev).

Definition updateSocialMediaSettings (settings : SiteSettings) (newSettings : value) : Prog () :=
  let updatedSettings := spread (socialMedia settings) newSettings in
  writeData "siteSettings/socialMedia" updatedSettings;;
  setSettings (λ prev, with_socialMedia updatedSettings prev).

Definition adminLogin (email password : string) : Prog bool :=
  try_catch
    (if bool_decide (email = "admin@example.com") && bool_decide (password = "admin123")
     then
       localStorage_setItem "adminLoggedIn" "true";;
       setSettings (λ prev, with_isAdmin true prev);;
       mret true
     else mret false)
    (λ error,
       console_error "Admin login error:" error;;
       mret false).

Definition adminLogout : Prog () :=
  localStorage_removeItem "adminLoggedIn";;
  setSettings (λ prev, with_isAdmin false prev).

(** The value handed to [SiteSettingsContext.Provider] by a render that
    sees the state [settings]. *)
Record SiteSettingsContextType := {
  ctx_settings : SiteSettings;
  ctx_unlockSite : string → Prog bool;
  ctx_togglePasswordProtection : bool → Prog ();
  ctx_changePassword : string → Prog ();
  ctx_updateCountdownSettings : value → Prog ();
  ctx_updateShippingSettings : value → Prog ();
  ctx_updateSocialMediaSettings : value → Prog ();
  ctx_adminLogin : string → string → Prog bool;
  ctx_adminLogout : Prog ();
}.

Definition SiteSettingsProvider (settings : SiteSettings) : SiteSettingsContextType :=
  {| ctx_settings := settings;
     ctx_unlockSite := unlockSite;
     ctx_togglePasswordProtection := togglePasswordProtection;
     ctx_changePassword := changePassword;
     ctx_updateCountdownSettings := updateCountdownSettings settings;
     ctx_updateShippingSettings := updateShippingSettings settings;
     ctx_updateSocialMediaSettings := updateSocialMediaSettings settings;
     ctx_adminLogin := adminLogin;
     ctx_adminLogout := adminLogout |}.

(** [useSiteSettings], given what [useContext(SiteSettingsContext)] finds:
    the value of the enclosing provider, or [undefined]. *)
Definition useSiteSettings (context : option SiteSettingsContextType)
  : Prog SiteSettingsContextType :=
  match context with
  | None => λ w, (Thrown (Err "useSiteSettings must be used within a SiteSettingsProvider"), w)
  | Some context => mret context
  end.

End Provider.

(** ** Observing a run *)

(** The paths read from the store, and the writes requested, oldest first. *)
Definition reads (t : list event) : list string :=
  omap (λ e, match e with RemoteRead p _ => Some p | _ => None end) t.
Definition writes (t : list event) : list (string * value) :=
  omap (λ e, match e with RemoteWrite p v _ => Some (p, v) | _ => None end) t.
Definition alerts (t : list event) : list string :=
  omap (λ e, match e with Alert msg => Some msg | _ => None end) t.
Definition logged_errors (t : list event) : list (string * js_error) :=
  omap (λ e, match e with ConsoleError msg err => Some (msg, err) | _ => None end) t.

(** [snapshot.exists()] on what a read of [siteSettings] resolves to. *)
Definition document_exists (w : World) : bool :=
  snapshot_exists {| val := get_at (segments "siteSettings") (remote w) |}.

(** The four sub-objects of the settings document. *)
Inductive SubObject := Countdown | Password | Shipping | Social.

Definition sub_name (s : SubObject) : string :=
  match s with
  | Countdown => "countdownSettings"
  | Password => "passwordProtection"
  | Shipping => "shippingSettings"
  | Social => "socialMedia"
  end.

Definition sub_of (s : SubObject) (x : SiteSettings) : value :=
  match s with
  | Countdown => countdownSettings x
  | Password => passwordProtection x
  | Shipping => shippingSettings x
  | Social => socialMedia x
  end.

(** What a sub-object update has to achieve, from the world [w] in which it
    was called to its result [r]: it returns, the store holds at the
    sub-object's path the very value the local state now holds, that value
    takes the fields named by [newSettings] from it and every other field
    from the sub-object of [settings], and no other sub-object moved. *)
Definition writes_merged (sub : SubObject) (settings : SiteSettings)
    (newSettings : value) (w : World) (r : Outcome () * World) : Prop :=
  let merged := sub_of sub (state r.2) in
  let p := "siteSettings/" +:+ sub_name sub in
  r.1 = Returned ()
  ∧ get_at (segments p) (remote r.2) = merged
  ∧ writes (trace r.2) = writes (trace w) ++ [(p, merged)]
  ∧ (∀ k v, own_props newSettings !! k = Some v → get_prop merged k = v)
  ∧ (∀ k, own_props newSettings !! k = None →
          get_prop merged k = get_prop (sub_of sub settings) k)
  ∧ (∀ other, other ≠ sub → sub_of other (state r.2) = sub_of other (state w)).

(** ** Sessions

    What can happen to a mounted provider, one event at a time: a consumer
    calls one of the eight operations, or the subscription delivers a
    payload.  A sub-object update comes with the state of the render its
    closure was created by. *)

Inductive action :=
  | CallUnlockSite (password : string)
  | CallTogglePasswordProtection (enabled : bool)
  | CallChangePassword (newPassword : string)
  | CallUpdateCountdownSettings (settings : SiteSettings) (newSettings : value)
  | CallUpdateShippingSettings (settings : SiteSettings) (newSettings : value)
  | CallUpdateSocialMediaSettings (settings : SiteSettings) (newSettings : value)
  | CallAdminLogin (email password : string)
  | CallAdminLogout
  | Deliver (data : value).

Section Session.

Variable shippingProvinces : list value.
Variable loadTime : Z.
Variable toISOString : Z → string.
Variable btoa : string → string.

(** The world after one event, whether the call returned or threw. *)
Definition after (a : action) (w : World) : World :=
  match a with
  | CallUnlockSite password => (unlockSite btoa password w).2
  | CallTogglePasswordProtection enabled => (togglePasswordProtection enabled w).2
  | CallChangePassword newPassword => (changePassword newPassword w).2
  | CallUpdateCountdownSettings settings newSettings =>
      (updateCountdownSettings settings newSettings w).2
  | CallUpdateShippingSettings settings newSettings =>
      (updateShippingSettings settings newSettings w).2
  | CallUpdateSocialMediaSettings settings newSettings =>
      (updateSocialMediaSettings settings newSettings w).2
  | CallAdminLogin email password => (adminLogin email password w).2
  | CallAdminLogout => (adminLogout w).2
  | Deliver data =>
      (onSiteSettings shippingProvinces loadTime toISOString data w).2
  end.

(** The world after a run of events, oldest first. *)
Definition session (actions : list action) (w : World) : World :=
  foldl (λ w a, after a w) w actions.

End Session.

(** The paths subscribed to, oldest first. *)
Definition watches (t : list event) : list string :=
  omap (λ e, match e with RemoteWatch p => Some p | _ => None end) t.

(** The two gate flags say what the storages say. *)
Definition gates_mirror_storage (w : World) : Prop :=
  isUnlocked (state w)
  = bool_decide (sessionStorage w !! "siteUnlocked" = Some "true")
  ∧ isAdmin (state w)
    = bool_decide (localStorage w !! "adminLoggedIn" = Some "true").

(** Each of the four sub-objects holds a truthy value. *)
Definition populated (s : SiteSettings) : Prop :=
  ∀ sub, truthy (sub_of sub s) = true.

(** Two paths part ways: after a common prefix they name different children. *)
Fixpoint diverge (p q : path) : bool :=
  match p, q with
  | k :: p', j :: q' => if decide (k = j) then diverge p' q' else true
  | _, _ => false
  end.

(** What a sub-object update must leave alone, from the world [w] in which
    it was called to its result [r]: the store along every path that parts
    ways with the sub-object's path, the other sub-objects in the store and
    in the local state, the flags, the currency and the storages; and when
    it does not return, the whole local state and the whole store. *)
Definition touches_only (sub : SubObject) (w : World)
    (r : Outcome () * World) : Prop :=
  (∀ q, diverge (segments ("siteSettings/" +:+ sub_name sub)) q = true →
        get_at q (remote r.2) = get_at q (remote w))
  ∧ (∀ other, other ≠ sub →
        get_at (segments ("siteSettings/" +:+ sub_name other)) (remote r.2)
        = get_at (segments ("siteSettings/" +:+ sub_name other)) (remote w))
  ∧ (∀ other, other ≠ sub → sub_of other (state r.2) = sub_of other (state w))
  ∧ isUnlocked (state r.2) = isUnlocked (state w)
  ∧ isAdmin (state r.2) = isAdmin (state w)
  ∧ isLoading (state r.2) = isLoading (state w)
  ∧ currency (state r.2) = currency (state w)
  ∧ sessionStorage r.2 = sessionStorage w
  ∧ localStorage r.2 = localStorage w
  ∧ (r.1 ≠ Returned () → state r.2 = state w ∧ remote r.2 = remote w).

(** What one event can do to the local state and to the storages. *)
Inductive local_change (w w' : World) : Prop :=
  | change_none :
      state w' = state w → sessionStorage w' = sessionStorage w →
      localStorage w' = localStorage w → local_change w w'
  | change_subobject (sub : SubObject) (x : value) :
      truthy x = true →
      sub_of sub (state w') = x →
      (∀ other, other ≠ sub → sub_of other (state w') = sub_of other (state w)) →
      isUnlocked (state w') = isUnlocked (state w) →
      isAdmin (state w') = isAdmin (state w) →
      isLoading (state w') = isLoading (state w) →
      currency (state w') = currency (state w) →
      sessionStorage w' = sessionStorage w →
      localStorage w' = localStorage w → local_change w w'
  | change_unlocked (token : string) :
      state w' = with_isUnlocked true (state w) →
      sessionStorage w'
      = <["authToken" := token]> (<["siteUnlocked" := "true"]> (sessionStorage w)) →
      localStorage w' = localStorage w → local_change w w'
  | change_admin_in :
      state w' = with_isAdmin true (state w) →
      sessionStorage w' = sessionStorage w →
      localStorage w' = <["adminLoggedIn" := "true"]> (localStorage w) →
      local_change w w'
  | change_admin_out :
      state w' = with_isAdmin false (state w) →
      sessionStorage w' = sessionStorage w →
      localStorage w' = delete "adminLoggedIn" (localStorage w) →
      local_change w w'
  | change_delivered :
      (∀ sub, truthy (sub_of sub (state w)) = true →
              truthy (sub_of sub (state w')) = true) →
      isUnlocked (state w') = isUnlocked (state w) →
      isAdmin (state w') = isAdmin (state w) →
      isLoading (state w') = false →
      currency (state w') = currency (state w) →
      sessionStorage w' = sessionStorage w →
      localStorage w' = localStorage w → local_change w w'.

(** ** Sample data for concrete runs *)

Module Sample.

Definition iso (t : Z) : string := "2026-01-08T00:00:00.000Z".

Definition defaults : SiteSettings := defaultSettings [] 0 iso.

(** A store that was seeded. *)
Definition seeded : value :=
  VObj {["siteSettings" := initialDocument [] 0 iso]}.

(** A world with the given store and fault schedule, and nothing in the
    storages. *)
Definition world (root : value) (schedule : list (option js_error)) : World :=
  {| remote := root; faults := schedule;
     sessionStorage := ∅; localStorage := ∅;
     state := defaults; clock := 1767225600000;
     rng := ["k3x9q0zab"]; trace := [] |}.

Definition offline : js_error := Err "PERMISSION_DENIED".

(** A countdown configured by the shop, as a live update delivers it. *)
Definition sale : value :=
  VObj (<["enabled" := VBool true]>
       (<["targetDate" := VStr "2026-02-01T00:00:00.000Z"]>
       (<["title" := VStr "Winter Sale"]> ∅))).

End Sample.

(** ** Facts about the store and the requests *)

Lemma get_at_set_at (p : path) (v root : value) :
  get_at p (set_at p v root) = v.
Proof.
  revert root. induction p as [|k p IH]; intros root; simpl; [done|].
  rewrite lookup_insert_eq. apply IH.
Qed.

(** From here on paths and store accesses stay folded. *)
Arguments segments : simpl never.
Arguments get_at : simpl never.
Arguments set_at : simpl never.

Lemma segments_siteSettings :
  segments "siteSettings" = ["siteSettings"].
Proof. reflexivity. Qed.
Lemma segments_password :
  segments "siteSettings/passwordProtection/password"
  = ["siteSettings"; "passwordProtection"; "password"].
Proof. reflexivity. Qed.
Lemma segments_enabled :
  segments "siteSettings/passwordProtection/enabled"
  = ["siteSettings"; "passwordProtection"; "enabled"].
Proof. reflexivity. Qed.

Lemma readData_resolves (p : string) (w : World) :
  next_fault w = None →
  readData p w
  = (Returned {| val := get_at (segments p) (remote w) |},
     emit (RemoteRead p None) (with_faults (tail (faults w)) w)).
Proof. intros H. unfold readData. by rewrite H. Qed.

Lemma readData_rejects (p : string) (e : js_error) (w : World) :
  next_fault w = Some e →
  readData p w
  = (Thrown e, emit (RemoteRead p (Some e)) (with_faults (tail (faults w)) w)).
Proof. intros H. unfold readData. by rewrite H. Qed.

Lemma writeData_resolves (p : string) (v : value) (w : World) :
  next_fault w = None →
  writeData p v w
  = (Returned (),
     emit (RemoteWrite p v None)
       (with_remote (set_at (segments p) v (remote w))
          (with_faults (tail (faults w)) w))).
Proof. intros H. unfold writeData. by rewrite H. Qed.

Lemma writeData_rejects (p : string) (v : value) (e : js_error) (w : World) :
  next_fault w = Some e →
  writeData p v w
  = (Thrown e, emit (RemoteWrite p v (Some e)) (with_faults (tail (faults w)) w)).
Proof. intros H. unfold writeData. by rewrite H. Qed.

Lemma strict_eq_string_true (s : string) (v : value) :
  strict_eq_string s v = true ↔ v = VStr s.
Proof.
  destruct v; simpl; try (split; [done | congruence]).
  rewrite bool_decide_eq_true. split; congruence.
Qed.

Lemma reads_snoc (t : list event) (e : event) :
  reads (t ++ [e])
  = reads t ++ match e with RemoteRead p _ => [p] | _ => [] end.
Proof. unfold reads. rewrite omap_app. by destruct e. Qed.

Lemma writes_snoc (t : list event) (e : event) :
  writes (t ++ [e])
  = writes t ++ match e with RemoteWrite p v _ => [(p, v)] | _ => [] end.
Proof. unfold writes. rewrite omap_app. by destruct e. Qed.

Lemma alerts_snoc (t : list event) (e : event) :
  alerts (t ++ [e])
  = alerts t ++ match e with Alert msg => [msg] | _ => [] end.
Proof. unfold alerts. rewrite omap_app. by destruct e. Qed.

Lemma logged_errors_snoc (t : list event) (e : event) :
  logged_errors (t ++ [e])
  = logged_errors t
    ++ match e with ConsoleError msg err => [(msg, err)] | _ => [] end.
Proof. unfold logged_errors. rewrite omap_app. by destruct e. Qed.

Lemma spread_lookup (a b : value) (k : string) :
  get_prop (spread a b) k
  = match own_props b !! k with
    | Some v => v
    | None => get_prop a k
    end.
Proof.
  unfold get_prop, spread. simpl. rewrite lookup_union.
  by destruct (own_props b !! k), (own_props a !! k).
Qed.

Lemma spread_set_lookup (a : value) (k j : string) (v : value) :
  get_prop (spread_set a k v) j
  = if decide (k = j) then v else get_prop a j.
Proof.
  unfold get_prop, spread_set. simpl. rewrite lookup_insert.
  by destruct (decide (k = j)).
Qed.

(** Unfolds the monad down to the requests, which stay folded. *)
Ltac run :=
  unfold catch, try_catch, mbind, Prog_bind, mret, Prog_ret, console_log,
    console_error, alert, setSettings, sessionStorage_getItem,
    sessionStorage_setItem, localStorage_getItem, localStorage_setItem,
    localStorage_removeItem, getTime, random36, watchData, perform; simpl.

(** ** [unlockSite] *)

Section UnlockSite.

Variable btoa : string → string.

Abbreviation passwordPath := "siteSettings/passwordProtection/password".

Lemma unlockSite_rejected (password : string) (e : js_error) (w : World) :
  next_fault w = Some e →
  unlockSite btoa password w
  = (Returned false,
     emit (ConsoleError "Error unlocking site with Firebase:" e)
       (emit (RemoteRead passwordPath (Some e))
          (with_faults (tail (faults w)) w))).
Proof.
  intros H. unfold unlockSite. run. by rewrite (readData_rejects _ e).
Qed.

Lemma unlockSite_mismatch (password : string) (w : World) :
  next_fault w = None →
  get_at (segments passwordPath) (remote w) ≠ VStr password →
  unlockSite btoa password w
  = (Returned false,
     emit (RemoteRead passwordPath None) (with_faults (tail (faults w)) w)).
Proof.
  intros H Hne. unfold unlockSite. run. rewrite readData_resolves by done.
  simpl. destruct (strict_eq_string _ _) eqn:E; [|done].
  by apply strict_eq_string_true in E.
Qed.

Lemma unlockSite_match (password : string) (w : World) :
  next_fault w = None →
  get_at (segments passwordPath) (remote w) = VStr password →
  (unlockSite btoa password w).1 = Returned true.
Proof.
  intros H Heq. unfold unlockSite. run. rewrite readData_resolves by done.
  simpl. rewrite Heq. simpl. rewrite bool_decide_eq_true_2 by done.
  unfold emit, with_faults. simpl. by destruct (rng w).
Qed.

(** C1.  [unlockSite(p)] returns true exactly when the read of
    [siteSettings/passwordProtection/password] made by this call resolves
    to the string [p]; in every other case (another string, the empty
    string against a missing password, a rejected read) it returns false.
    The answer does not depend on the local state, so a password that is
    only cached locally is refused. *)
Theorem unlockSite_true_iff_remote_password (p : string) (w : World) :
  let answer := (unlockSite btoa p w).1 in
  let read := (readData passwordPath w).1 in
  (answer = Returned true ↔ read = Returned {| val := VStr p |})
  ∧ (answer = Returned false ↔ read ≠ Returned {| val := VStr p |})
  ∧ (∀ cached : SiteSettings,
       (unlockSite btoa p (with_state cached w)).1 = answer).
Proof.
  simpl. destruct (next_fault w) as [e|] eqn:Hf.
  - rewrite (unlockSite_rejected _ e), (readData_rejects _ e) by done.
    simpl. repeat split; try done.
    intros cached. by rewrite (unlockSite_rejected _ e).
  - rewrite readData_resolves by done. simpl.
    destruct (strict_eq_string p
                (get_at (segments passwordPath) (remote w))) eqn:E.
    + apply strict_eq_string_true in E.
      rewrite unlockSite_match by done. rewrite E.
      split; [done|]. split; [split; [done|]; by intros []|].
      intros cached. by rewrite unlockSite_match.
    + assert (get_at (segments passwordPath) (remote w) ≠ VStr p) as Hne.
      { intros Hc. apply strict_eq_string_true in Hc. congruence. }
      rewrite unlockSite_mismatch by done. simpl.
      split; [split; [done|]; intros Hc; congruence|].
      split; [split; [|done]; intros _ Hc; congruence|].
      intros cached. by rewrite unlockSite_mismatch.
Qed.

(** C8.  A wrong password, or a rejected read of the password, makes
    [unlockSite] return false without throwing and without touching the
    local state, the session storage, the durable storage or the store;
    a rejected read is logged with [console.error]. *)
Theorem unlockSite_fails_closed (p : string) (w : World) :
  (next_fault w = None →
   get_at (segments passwordPath) (remote w) ≠ VStr p →
   let r := unlockSite btoa p w in
   r.1 = Returned false
   ∧ state r.2 = state w
   ∧ sessionStorage r.2 = sessionStorage w
   ∧ localStorage r.2 = localStorage w
   ∧ remote r.2 = remote w
   ∧ trace r.2 = trace w ++ [RemoteRead passwordPath None])
  ∧ (∀ e, next_fault w = Some e →
     let r := unlockSite btoa p w in
     r.1 = Returned false
     ∧ state r.2 = state w
     ∧ sessionStorage r.2 = sessionStorage w
     ∧ localStorage r.2 = localStorage w
     ∧ remote r.2 = remote w
     ∧ trace r.2
       = trace w ++ [RemoteRead passwordPath (Some e);
                     ConsoleError "Error unlocking site with Firebase:" e]).
Proof.
  split.
  - intros Hf Hne. rewrite unlockSite_mismatch by done. done.
  - intros e Hf. rewrite (unlockSite_rejected _ e) by done. simpl.
    by rewrite <-app_assoc.
Qed.

End UnlockSite.

(** ** [useSiteSettings] *)

(** C9.  Without an enclosing provider [useSiteSettings] throws at once,
    with nothing done before; under a provider it returns the provider's
    value. *)
Theorem useSiteSettings_outside_provider_throws (w : World) :
  useSiteSettings None w
  = (Thrown (Err "useSiteSettings must be used within a SiteSettingsProvider"), w)
  ∧ ∀ context, useSiteSettings (Some context) w = (Returned context, w).
Proof. done. Qed.

(** ** Seeding and live updates *)

Section Synchronizer.

Variable shippingProvinces : list value.
Variable loadTime : Z.
Variable toISOString : Z → string.

Abbreviation defaults := (defaultSettings shippingProvinces loadTime toISOString).
Abbreviation seed := (initialDocument shippingProvinces loadTime toISOString).
Abbreviation initialize := (initializeSettings shippingProvinces loadTime toISOString).
Abbreviation onData := (onSiteSettings shippingProvinces loadTime toISOString).

Lemma seed_exists (root : value) :
  snapshot_exists {| val := get_at (segments "siteSettings")
                              (set_at (segments "siteSettings") seed root) |}
  = true.
Proof. by rewrite get_at_set_at. Qed.

Lemma initialize_rejected (e : js_error) (w : World) :
  next_fault w = Some e →
  initialize w
  = (Thrown e, emit (RemoteRead "siteSettings" (Some e))
                 (with_faults (tail (faults w)) w)).
Proof.
  intros H. unfold initializeSettings. run. by rewrite (readData_rejects _ e).
Qed.

Lemma initialize_existing (w : World) :
  next_fault w = None →
  document_exists w = true →
  initialize w
  = (Returned (), emit (RemoteRead "siteSettings" None)
                    (with_faults (tail (faults w)) w)).
Proof.
  intros H Hex. unfold initializeSettings. run.
  rewrite readData_resolves by done. simpl.
  unfold document_exists in Hex. by rewrite Hex.
Qed.

Lemma initialize_missing (w : World) :
  next_fault w = None →
  document_exists w = false →
  let w1 := emit (RemoteRead "siteSettings" None)
              (with_faults (tail (faults w)) w) in
  initialize w
  = match next_fault w1 with
    | Some e =>
        (Thrown e, emit (RemoteWrite "siteSettings" seed (Some e))
                     (with_faults (tail (faults w1)) w1))
    | None =>
        (Returned (),
         emit (ConsoleLog ["Initialized default settings in Firebase"])
           (emit (RemoteWrite "siteSettings" seed None)
              (with_remote (set_at (segments "siteSettings") seed (remote w))
                 (with_faults (tail (faults w1)) w1))))
    end.
Proof.
  intros H Hex. unfold initializeSettings. run.
  rewrite readData_resolves by done. simpl.
  unfold document_exists in Hex. rewrite Hex. simpl.
  unfold writeData. by destruct (next_fault (emit _ _)).
Qed.

Lemma initialize_keeps_existing (w : World) :
  document_exists w = true →
  remote (initialize w).2 = remote w
  ∧ writes (trace (initialize w).2) = writes (trace w).
Proof.
  intros Hex. destruct (next_fault w) as [e|] eqn:Hf.
  - rewrite (initialize_rejected e) by done. simpl.
    by rewrite writes_snoc, app_nil_r.
  - rewrite initialize_existing by done. simpl.
    by rewrite writes_snoc, app_nil_r.
Qed.

Lemma seed_is_defaults :
  (∀ sub, get_prop seed (sub_name sub) = sub_of sub defaults)
  ∧ (∀ k v, own_props seed !! k = Some v →
            ∃ sub, k = sub_name sub ∧ v = sub_of sub defaults).
Proof.
  split; [by intros []|]. intros k v Hk.
  unfold initialDocument in Hk. simpl in Hk.
  rewrite !lookup_insert in Hk.
  destruct (decide ("countdownSettings" = k)) as [<-|_];
    [exists Countdown; by simplify_eq|].
  destruct (decide ("passwordProtection" = k)) as [<-|_];
    [exists Password; by simplify_eq|].
  destruct (decide ("shippingSettings" = k)) as [<-|_];
    [exists Shipping; by simplify_eq|].
  destruct (decide ("socialMedia" = k)) as [<-|_];
    [exists Social; by simplify_eq|].
  by rewrite lookup_empty in Hk.
Qed.

(** C2.  [initializeSettings] reads [siteSettings] exactly once.  The only
    write it can request is the default document at [siteSettings], and
    it requests it exactly when the read resolved and found nothing; the
    store then holds the document.  When the document is already there
    the run requests no write and leaves the store as it was, and so does
    running it a second time.  The document written is the full default
    object: under each of the four sub-object names it holds that
    sub-object of [defaultSettings], and it holds nothing else. *)
Theorem initializeSettings_seed_idempotent (w : World) :
  let w1 := (initialize w).2 in
  reads (trace w1) = reads (trace w) ++ ["siteSettings"]
  ∧ (writes (trace w1) = writes (trace w) ++ [("siteSettings", seed)]
     ↔ next_fault w = None ∧ document_exists w = false)
  ∧ (writes (trace w1) ≠ writes (trace w) ++ [("siteSettings", seed)] →
     writes (trace w1) = writes (trace w) ∧ remote w1 = remote w)
  ∧ (next_fault w = None → document_exists w = false →
     next_fault (with_faults (tail (faults w)) w) = None →
     get_at (segments "siteSettings") (remote w1) = seed
     ∧ document_exists w1 = true)
  ∧ (document_exists w = true →
     let w2 := (initialize w1).2 in
     remote w1 = remote w ∧ writes (trace w1) = writes (trace w)
     ∧ remote w2 = remote w ∧ writes (trace w2) = writes (trace w))
  ∧ ((∀ sub, get_prop seed (sub_name sub) = sub_of sub defaults)
     ∧ (∀ k v, own_props seed !! k = Some v →
               ∃ sub, k = sub_name sub ∧ v = sub_of sub defaults)).
Proof.
  simpl. split; [|split; [|split; [|split; [|split]]]].
  - destruct (next_fault w) as [e|] eqn:Hf.
    + rewrite (initialize_rejected e) by done. simpl. by rewrite reads_snoc.
    + destruct (document_exists w) eqn:Hex.
      * rewrite initialize_existing by done. simpl. by rewrite reads_snoc.
      * rewrite initialize_missing by done.
        destruct (next_fault (emit _ _)); simpl;
          by rewrite ?reads_snoc, ?app_nil_r.
  - destruct (next_fault w) as [e|] eqn:Hf.
    + rewrite (initialize_rejected e) by done. simpl.
      rewrite writes_snoc, app_nil_r. split; [|intros []; congruence].
      intros Hc. apply (f_equal length) in Hc.
      rewrite length_app in Hc. simpl in Hc. lia.
    + destruct (document_exists w) eqn:Hex.
      * rewrite initialize_existing by done. simpl.
        rewrite writes_snoc, app_nil_r. split; [|intros []; congruence].
        intros Hc. apply (f_equal length) in Hc.
        rewrite length_app in Hc. simpl in Hc. lia.
      * rewrite initialize_missing by done.
        destruct (next_fault (emit _ _)); simpl;
          by rewrite ?writes_snoc, ?app_nil_r.
  - destruct (next_fault w) as [e|] eqn:Hf.
    + rewrite (initialize_rejected e) by done. simpl.
      by rewrite writes_snoc, app_nil_r.
    + destruct (document_exists w) eqn:Hex.
      * rewrite initialize_existing by done. simpl.
        by rewrite writes_snoc, app_nil_r.
      * rewrite initialize_missing by done.
        destruct (next_fault (emit _ _)); simpl;
          rewrite ?writes_snoc, ?app_nil_r; by intros [].
  - intros Hf Hex Hf2. rewrite initialize_missing by done.
    change (next_fault (emit _ ?x)) with (next_fault x).
    rewrite Hf2. unfold document_exists. simpl.
    by rewrite get_at_set_at.
  - intros Hex.
    destruct (initialize_keeps_existing w Hex) as [Hr Hw].
    assert (document_exists (initialize w).2 = true) as Hex'.
    { unfold document_exists in *. by rewrite Hr. }
    destruct (initialize_keeps_existing _ Hex') as [Hr' Hw'].
    repeat split; congruence.
  - exact seed_is_defaults.
Qed.

(** C10.  A payload that fails the handler's test [if (data)], [null] and
    [undefined] among them, changes [isLoading] to false and nothing
    else: the four sub-objects, both gate flags, the currency, the
    storages and the store keep their values. *)
Theorem onSiteSettings_absent_payload_keeps_state (data : value) (w : World) :
  truthy data = false →
  let r := onData data w in
  r.1 = Returned ()
  ∧ (∀ sub, sub_of sub (state r.2) = sub_of sub (state w))
  ∧ isUnlocked (state r.2) = isUnlocked (state w)
  ∧ isAdmin (state r.2) = isAdmin (state w)
  ∧ currency (state r.2) = currency (state w)
  ∧ isLoading (state r.2) = false
  ∧ r.2 = with_state (with_isLoading false (state w)) w.
Proof.
  intros Hd. unfold onSiteSettings. rewrite Hd. run.
  repeat split; done.
Qed.

Lemma or_else_truthy (a b : value) :
  truthy b = true → truthy (or_else a b) = true.
Proof. intros Hb. unfold or_else. by destruct (truthy a) eqn:E. Qed.

Lemma defaults_truthy (sub : SubObject) : truthy (sub_of sub defaults) = true.
Proof. by destruct sub. Qed.

Lemma onData_truthy (data : value) (w : World) :
  truthy data = true →
  onData data w
  = (Returned (),
     with_state
       (with_isLoading false
         (with_socialMedia
            (or_else (get_prop data "socialMedia") (socialMedia defaults))
         (with_shippingSettings
            (or_else (get_prop data "shippingSettings") (shippingSettings defaults))
         (with_passwordProtection
            (or_else (get_prop data "passwordProtection") (passwordProtection defaults))
         (with_countdownSettings
            (or_else (get_prop data "countdownSettings") (countdownSettings defaults))
            (state w)))))) w).
Proof. intros Hd. unfold onSiteSettings. by rewrite Hd. Qed.

Lemma onData_sub (data : value) (w : World) (sub : SubObject) :
  truthy data = true →
  sub_of sub (state (onData data w).2)
  = or_else (get_prop data (sub_name sub)) (sub_of sub defaults).
Proof. intros Hd. rewrite onData_truthy by done. by destruct sub. Qed.

(** C3, as the handler has it.  For every payload that passes the
    handler's test [if (data)] and each of the four sub-objects: a
    sub-object the payload omits (or holds as a falsy value) is the
    default in the merged view, one it holds is taken from the payload,
    so each of the four is populated; [isLoading] becomes false. *)
Theorem onSiteSettings_truthy_payload_defaults (data : value) (w : World) :
  truthy data = true →
  let r := onData data w in
  r.1 = Returned ()
  ∧ (∀ sub, get_prop data (sub_name sub) = VUndef →
            sub_of sub (state r.2) = sub_of sub defaults)
  ∧ (∀ sub, truthy (get_prop data (sub_name sub)) = true →
            sub_of sub (state r.2) = get_prop data (sub_name sub))
  ∧ (∀ sub, truthy (sub_of sub (state r.2)) = true)
  ∧ isLoading (state r.2) = false.
Proof.
  intros Hd. simpl. split; [by rewrite onData_truthy|].
  split; [|split; [|split]].
  - intros sub Hsub. rewrite onData_sub by done. by rewrite Hsub.
  - intros sub Hsub. rewrite onData_sub by done. unfold or_else.
    by rewrite Hsub.
  - intros sub. rewrite onData_sub by done.
    apply or_else_truthy, defaults_truthy.
  - by rewrite onData_truthy.
Qed.

End Synchronizer.

(** ** The mutations *)

Section Mutations.

Variable btoa : string → string.

Lemma updateCountdownSettings_resolved settings newSettings (w : World) :
  next_fault w = None →
  let merged := spread (countdownSettings settings) newSettings in
  updateCountdownSettings settings newSettings w
  = (Returned (),
     with_state (with_countdownSettings merged (state w))
       (emit (RemoteWrite "siteSettings/countdownSettings" merged None)
          (with_remote
             (set_at (segments "siteSettings/countdownSettings") merged (remote w))
             (with_faults (tail (faults w)) w)))).
Proof.
  intros H. unfold updateCountdownSettings. run.
  by rewrite writeData_resolves.
Qed.

Lemma updateShippingSettings_resolved settings newSettings (w : World) :
  next_fault w = None →
  let merged := spread (shippingSettings settings) newSettings in
  updateShippingSettings settings newSettings w
  = (Returned (),
     with_state (with_shippingSettings merged (state w))
       (emit (RemoteWrite "siteSettings/shippingSettings" merged None)
          (with_remote
             (set_at (segments "siteSettings/shippingSettings") merged (remote w))
             (with_faults (tail (faults w)) w)))).
Proof.
  intros H. unfold updateShippingSettings. run.
  by rewrite writeData_resolves.
Qed.

Lemma updateSocialMediaSettings_resolved settings newSettings (w : World) :
  next_fault w = None →
  let merged := spread (socialMedia settings) newSettings in
  updateSocialMediaSettings settings newSettings w
  = (Returned (),
     with_state (with_socialMedia merged (state w))
       (emit (RemoteWrite "siteSettings/socialMedia" merged None)
          (with_remote
             (set_at (segments "siteSettings/socialMedia") merged (remote w))
             (with_faults (tail (faults w)) w)))).
Proof.
  intros H. unfold updateSocialMediaSettings. run.
  by rewrite writeData_resolves.
Qed.

Lemma updateCountdownSettings_rejected settings newSettings e (w : World) :
  next_fault w = Some e →
  updateCountdownSettings settings newSettings w
  = (Thrown e,
     emit (RemoteWrite "siteSettings/countdownSettings"
             (spread (countdownSettings settings) newSettings) (Some e))
       (with_faults (tail (faults w)) w)).
Proof.
  intros H. unfold updateCountdownSettings. run.
  by rewrite (writeData_rejects _ _ e).
Qed.

Lemma updateShippingSettings_rejected settings newSettings e (w : World) :
  next_fault w = Some e →
  updateShippingSettings settings newSettings w
  = (Thrown e,
     emit (RemoteWrite "siteSettings/shippingSettings"
             (spread (shippingSettings settings) newSettings) (Some e))
       (with_faults (tail (faults w)) w)).
Proof.
  intros H. unfold updateShippingSettings. run.
  by rewrite (writeData_rejects _ _ e).
Qed.

Lemma updateSocialMediaSettings_rejected settings newSettings e (w : World) :
  next_fault w = Some e →
  updateSocialMediaSettings settings newSettings w
  = (Thrown e,
     emit (RemoteWrite "siteSettings/socialMedia"
             (spread (socialMedia settings) newSettings) (Some e))
       (with_faults (tail (faults w)) w)).
Proof.
  intros H. unfold updateSocialMediaSettings. run.
  by rewrite (writeData_rejects _ _ e).
Qed.

Lemma togglePasswordProtection_resolved (enabled : bool) (w : World) :
  next_fault w = None →
  togglePasswordProtection enabled w
  = (Returned (),
     with_state
       (with_passwordProtection
          (spread_set (passwordProtection (state w)) "enabled" (VBool enabled))
          (state w))
       (emit (ConsoleLog ["Password protection " +:+
                          (if enabled then "enabled" else "disabled") +:+
                          " in Firebase"])
          (emit (RemoteWrite "siteSettings/passwordProtection/enabled"
                   (VBool enabled) None)
             (with_remote
                (set_at (segments "siteSettings/passwordProtection/enabled")
                   (VBool enabled) (remote w))
                (with_faults (tail (faults w)) w))))).
Proof.
  intros H. unfold togglePasswordProtection. run.
  by rewrite writeData_resolves.
Qed.

Lemma togglePasswordProtection_rejected (enabled : bool) e (w : World) :
  next_fault w = Some e →
  togglePasswordProtection enabled w
  = (Returned (),
     emit (Alert "Error updating password protection setting. Please try again.")
       (emit (ConsoleError "Error toggling password protection:" e)
          (emit (RemoteWrite "siteSettings/passwordProtection/enabled"
                   (VBool enabled) (Some e))
             (with_faults (tail (faults w)) w)))).
Proof.
  intros H. unfold togglePasswordProtection. run.
  by rewrite (writeData_rejects _ _ e).
Qed.

Lemma changePassword_rejected (newPassword : string) e (w : World) :
  next_fault w = Some e →
  changePassword newPassword w
  = (Returned (),
     emit (Alert "Error changing password. Please try again.")
       (emit (ConsoleError "Error changing password:" e)
          (emit (RemoteWrite "siteSettings/passwordProtection/password"
                   (VStr newPassword) (Some e))
             (with_faults (tail (faults w))
                (emit (ConsoleLog ["Updating password in Firebase to:"; newPassword])
                   w))))).
Proof.
  intros H. unfold changePassword. run.
  by rewrite (writeData_rejects _ _ e).
Qed.

Lemma updates_write_merged (settings : SiteSettings) (newSettings : value)
    (w : World) :
  next_fault w = None →
  writes_merged Countdown settings newSettings w
    (updateCountdownSettings settings newSettings w)
  ∧ writes_merged Shipping settings newSettings w
      (updateShippingSettings settings newSettings w)
  ∧ writes_merged Social settings newSettings w
      (updateSocialMediaSettings settings newSettings w).
Proof.
  intros Hf. split; [|split].
  - rewrite updateCountdownSettings_resolved by done.
    unfold writes_merged. simpl. rewrite get_at_set_at, writes_snoc.
    repeat split; try done.
    + intros k v Hk. by rewrite spread_lookup, Hk.
    + intros k Hk. by rewrite spread_lookup, Hk.
    + intros other Hne. by destruct other.
  - rewrite updateShippingSettings_resolved by done.
    unfold writes_merged. simpl. rewrite get_at_set_at, writes_snoc.
    repeat split; try done.
    + intros k v Hk. by rewrite spread_lookup, Hk.
    + intros k Hk. by rewrite spread_lookup, Hk.
    + intros other Hne. by destruct other.
  - rewrite updateSocialMediaSettings_resolved by done.
    unfold writes_merged. simpl. rewrite get_at_set_at, writes_snoc.
    repeat split; try done.
    + intros k v Hk. by rewrite spread_lookup, Hk.
    + intros k Hk. by rewrite spread_lookup, Hk.
    + intros other Hne. by destruct other.
Qed.

(** Through a render of the current state the updates do merge into the
    current local sub-object.  Take the three sub-object updates as the
    provider exposes them when it renders the current state.  When the
    write goes through, each
    returns, leaves at the sub-object's remote path exactly the value it
    stores in the local state, and that value is the current local
    sub-object overridden by the fields of the partial: fields the
    partial does not name keep their values.  With local shipping
    settings [{minPrice: 300, maxPrice: 800, freeShippingThreshold: 5000,
    provinces: P}], [updateShippingSettings({minPrice: 400})] leaves
    [{minPrice: 400, maxPrice: 800, freeShippingThreshold: 5000,
    provinces: P}] both remotely and locally. *)
Theorem update_settings_writes_merged_subobject
    (newSettings : value) (w : World) :
  next_fault w = None →
  let context := SiteSettingsProvider btoa (state w) in
  writes_merged Countdown (state w) newSettings w
    (ctx_updateCountdownSettings context newSettings w)
  ∧ writes_merged Shipping (state w) newSettings w
      (ctx_updateShippingSettings context newSettings w)
  ∧ writes_merged Social (state w) newSettings w
      (ctx_updateSocialMediaSettings context newSettings w)
  ∧ (∀ P : value,
       shippingSettings (state w)
       = VObj (<["minPrice" := num 300]> (<["maxPrice" := num 800]>
              (<["freeShippingThreshold" := num 5000]>
              (<["provinces" := P]> ∅)))) →
       let r := ctx_updateShippingSettings context
                  (VObj {["minPrice" := num 400]}) w in
       let expected :=
         VObj (<["minPrice" := num 400]> (<["maxPrice" := num 800]>
              (<["freeShippingThreshold" := num 5000]>
              (<["provinces" := P]> ∅)))) in
       r.1 = Returned ()
       ∧ get_at (segments "siteSettings/shippingSettings") (remote r.2) = expected
       ∧ shippingSettings (state r.2) = expected).
Proof.
  intros Hf context.
  destruct (updates_write_merged (state w) newSettings w Hf) as (Hc & Hs & Hm).
  split; [exact Hc|]. split; [exact Hs|]. split; [exact Hm|].
  intros P HP. unfold context. cbn [ctx_updateShippingSettings SiteSettingsProvider].
  rewrite updateShippingSettings_resolved by done.
  simpl. rewrite get_at_set_at, HP. unfold spread. simpl.
  split; [done|]. split; reflexivity.
Qed.

(** X13.  The update functions merge into the state their render saw.  Two calls
    through the same render therefore do not add up: the second writes the
    render's sub-object overridden by its own partial alone. *)
Remark updateShippingSettings_same_render (settings : SiteSettings)
    (first second : value) (w : World) :
  next_fault w = None →
  next_fault (with_faults (tail (faults w)) w) = None →
  let w1 := (updateShippingSettings settings first w).2 in
  let w2 := (updateShippingSettings settings second w1).2 in
  shippingSettings (state w2) = spread (shippingSettings settings) second.
Proof.
  intros Hf Hf2. simpl.
  rewrite (updateShippingSettings_resolved settings first w) by done.
  simpl. by rewrite updateShippingSettings_resolved.
Qed.

(** C5, where the code departs from it.  The update functions merge into
    the sub-object of the render that created them, not into the current
    local sub-object.  From the seeded defaults, a consumer that holds one
    context value calls [updateShippingSettings({minPrice: 400})] and then
    [updateShippingSettings({maxPrice: 900})].  Before the second call the
    local and the remote [minPrice] are 400, and the second partial does
    not name [minPrice]; after it, both are 300 again.  So the second call
    does not write the merge of the current local sub-object with its
    partial: a field the partial does not name lost its current value. *)
Theorem update_settings_stale_render_reverts_fields :
  let w := Sample.world Sample.seeded [] in
  let context := SiteSettingsProvider btoa (state w) in
  let w1 := (ctx_updateShippingSettings context
               (VObj {["minPrice" := num 400]}) w).2 in
  let second := VObj {["maxPrice" := num 900]} in
  let r := ctx_updateShippingSettings context second w1 in
  get_prop (shippingSettings (state w1)) "minPrice" = num 400
  ∧ get_at (segments "siteSettings/shippingSettings/minPrice") (remote w1)
    = num 400
  ∧ own_props second !! "minPrice" = None
  ∧ r.1 = Returned ()
  ∧ get_prop (shippingSettings (state r.2)) "minPrice" = num 300
  ∧ get_at (segments "siteSettings/shippingSettings/minPrice") (remote r.2)
    = num 300
  ∧ get_prop (shippingSettings (state r.2)) "maxPrice" = num 900
  ∧ ¬ writes_merged Shipping (state w1) second w1 r.
Proof.
  intros w context w1 second r.
  split; [reflexivity|]. split; [reflexivity|]. split; [reflexivity|].
  split; [reflexivity|]. split; [reflexivity|]. split; [reflexivity|].
  split; [reflexivity|].
  intros (_ & _ & _ & _ & Hkeep & _).
  specialize (Hkeep "minPrice" eq_refl).
  vm_compute in Hkeep. discriminate Hkeep.
Qed.

(** C6.  [togglePasswordProtection(enabled)] requests the write of the
    flag at [siteSettings/passwordProtection/enabled].  When the write
    goes through, the store holds the flag there, the local
    [passwordProtection.enabled] is the same flag, its other fields are
    kept and nobody is alerted.  When the write is rejected the call
    still returns, the local state and the store are what they were, and
    the failure is logged and then shown in an alert. *)
Theorem togglePasswordProtection_write_then_state (enabled : bool) (w : World) :
  let r := togglePasswordProtection enabled w in
  let p := "siteSettings/passwordProtection/enabled" in
  (next_fault w = None →
   r.1 = Returned ()
   ∧ get_at (segments p) (remote r.2) = VBool enabled
   ∧ get_prop (passwordProtection (state r.2)) "enabled" = VBool enabled
   ∧ (∀ k, k ≠ "enabled" →
           get_prop (passwordProtection (state r.2)) k
           = get_prop (passwordProtection (state w)) k)
   ∧ writes (trace r.2) = writes (trace w) ++ [(p, VBool enabled)]
   ∧ alerts (trace r.2) = alerts (trace w))
  ∧ (∀ e, next_fault w = Some e →
     r.1 = Returned ()
     ∧ state r.2 = state w
     ∧ remote r.2 = remote w
     ∧ trace r.2
       = trace w ++ [RemoteWrite p (VBool enabled) (Some e);
                     ConsoleError "Error toggling password protection:" e;
                     Alert "Error updating password protection setting. Please try again."]).
Proof.
  simpl. split.
  - intros Hf. rewrite togglePasswordProtection_resolved by done. simpl.
    rewrite get_at_set_at, !alerts_snoc, !writes_snoc, !app_nil_r.
    repeat split; try done.
    + by rewrite spread_set_lookup, decide_True.
    + intros k Hk. by rewrite spread_set_lookup, decide_False.
  - intros e Hf. rewrite (togglePasswordProtection_rejected _ e) by done.
    simpl. by rewrite <-!app_assoc.
Qed.

(** C4, where the code departs from it.  When the write is rejected with
    [e], each of the three sub-object updates rejects with [e] in turn:
    the failure reaches the caller, nothing is logged and nobody is
    alerted.  The two password mutations called in the same world return
    normally after logging the failure and alerting the user, and
    [unlockSite] returns false. *)
Theorem update_settings_rejection_reaches_caller
    (settings : SiteSettings) (newSettings : value)
    (e : js_error) (w : World) :
  let w0 := with_faults (Some e :: faults w) w in
  let unwrapped (r : Outcome () * World) :=
    r.1 = Thrown e
    ∧ logged_errors (trace r.2) = logged_errors (trace w)
    ∧ alerts (trace r.2) = alerts (trace w) in
  let wrapped (r : Outcome () * World) :=
    r.1 = Returned ()
    ∧ length (logged_errors (trace r.2)) = S (length (logged_errors (trace w)))
    ∧ length (alerts (trace r.2)) = S (length (alerts (trace w))) in
  unwrapped (updateCountdownSettings settings newSettings w0)
  ∧ unwrapped (updateShippingSettings settings newSettings w0)
  ∧ unwrapped (updateSocialMediaSettings settings newSettings w0)
  ∧ (∀ enabled, wrapped (togglePasswordProtection enabled w0))
  ∧ (∀ newPassword, wrapped (changePassword newPassword w0))
  ∧ (∀ password, (unlockSite btoa password w0).1 = Returned false).
Proof.
  intros w0 unwrapped wrapped.
  assert (next_fault w0 = Some e) as Hf by done.
  assert (trace w0 = trace w) as Ht by done.
  unfold unwrapped, wrapped. clearbody w0.
  split; [|split; [|split; [|split; [|split]]]].
  - rewrite (updateCountdownSettings_rejected _ _ e) by done. simpl.
    by rewrite logged_errors_snoc, alerts_snoc, !app_nil_r, Ht.
  - rewrite (updateShippingSettings_rejected _ _ e) by done. simpl.
    by rewrite logged_errors_snoc, alerts_snoc, !app_nil_r, Ht.
  - rewrite (updateSocialMediaSettings_rejected _ _ e) by done. simpl.
    by rewrite logged_errors_snoc, alerts_snoc, !app_nil_r, Ht.
  - intros enabled.
    rewrite (togglePasswordProtection_rejected _ e) by done. simpl.
    rewrite !logged_errors_snoc, !alerts_snoc, !app_nil_r, !length_app, Ht.
    simpl. split; [done|split; lia].
  - intros newPassword.
    rewrite (changePassword_rejected _ e) by done. simpl.
    rewrite !logged_errors_snoc, !alerts_snoc, !app_nil_r, !length_app, Ht.
    simpl. split; [done|split; lia].
  - intros password. by rewrite (unlockSite_rejected _ _ e).
Qed.

End Mutations.

(** ** The admin gate *)

Section Admin.

Variable shippingProvinces : list value.
Variable loadTime : Z.
Variable toISOString : Z → string.

Abbreviation start := (mount shippingProvinces loadTime toISOString).

Lemma adminLogin_accepted (w : World) :
  adminLogin "admin@example.com" "admin123" w
  = (Returned true,
     with_state (with_isAdmin true (state w))
       (with_localStorage (<["adminLoggedIn" := "true"]> (localStorage w)) w)).
Proof. done. Qed.

Lemma adminLogin_refused (email password : string) (w : World) :
  ¬ (email = "admin@example.com" ∧ password = "admin123") →
  adminLogin email password w = (Returned false, w).
Proof.
  intros Hno. unfold adminLogin. run.
  destruct (bool_decide (email = "admin@example.com")) eqn:E1;
    destruct (bool_decide (password = "admin123")) eqn:E2; try done.
  apply bool_decide_eq_true in E1, E2. tauto.
Qed.

Lemma initialize_frame (w : World) :
  let w1 := (initializeSettings shippingProvinces loadTime toISOString w).2 in
  state w1 = state w
  ∧ localStorage w1 = localStorage w
  ∧ sessionStorage w1 = sessionStorage w.
Proof.
  simpl. destruct (next_fault w) as [e|] eqn:Hf.
  - by rewrite (initialize_rejected _ _ _ e).
  - destruct (document_exists w) eqn:Hex.
    + by rewrite initialize_existing.
    + rewrite initialize_missing by done.
      by destruct (next_fault (emit _ _)).
Qed.

Lemma mount_isAdmin (w : World) :
  isAdmin (state (start w).2)
  = bool_decide (localStorage w !! "adminLoggedIn" = Some "true").
Proof.
  unfold mount, mountEffect. run.
  pose proof (initialize_frame (with_state
    (defaultSettings shippingProvinces loadTime toISOString) w)) as Hfr.
  simpl in Hfr.
  destruct (initializeSettings _ _ _ _) as [[[]|e] w1];
    simpl in *; destruct Hfr as (Hs & Hl & Hss);
    destruct (bool_decide (sessionStorage w1 !! "siteUnlocked" = Some "true"));
    simpl; rewrite Hl;
    destruct (bool_decide (localStorage w !! "adminLoggedIn" = Some "true"));
    simpl; by rewrite ?Hs.
Qed.

(** C7.  [adminLogin] returns true exactly for the pair
    [admin@example.com] / [admin123]; it then stores [adminLoggedIn] in
    the durable storage and sets [isAdmin]; any other pair returns false
    and leaves the whole world as it was.  [adminLogout] removes the
    flag and clears [isAdmin] without any request or output, and a fresh
    start after it, like any fresh start without the flag, has [isAdmin]
    false. *)
Theorem adminLogin_fixed_credentials (email password : string) (w : World) :
  let r := adminLogin email password w in
  let ok := email = "admin@example.com" ∧ password = "admin123" in
  (r.1 = Returned true ↔ ok)
  ∧ (ok → localStorage r.2 !! "adminLoggedIn" = Some "true"
          ∧ isAdmin (state r.2) = true)
  ∧ (¬ ok → r = (Returned false, w))
  ∧ (let out := adminLogout w in
     out.1 = Returned ()
     ∧ localStorage out.2 !! "adminLoggedIn" = None
     ∧ isAdmin (state out.2) = false
     ∧ remote out.2 = remote w
     ∧ faults out.2 = faults w
     ∧ trace out.2 = trace w
     ∧ isAdmin (state (start out.2).2) = false)
  ∧ (localStorage w !! "adminLoggedIn" = None →
     isAdmin (state (start w).2) = false).
Proof.
  intros r ok. split; [|split; [|split; [|split]]].
  - destruct (decide (email = "admin@example.com")) as [->|H1];
      [destruct (decide (password = "admin123")) as [->|H2]|].
    + done.
    + unfold r. rewrite adminLogin_refused by (intros []; done).
      split; [done|]. intros []; done.
    + unfold r. rewrite adminLogin_refused by (intros []; done).
      split; [done|]. intros []; done.
  - intros [-> ->]. unfold r. rewrite adminLogin_accepted. simpl.
    by rewrite lookup_insert_eq.
  - intros Hno. by apply adminLogin_refused.
  - simpl. rewrite mount_isAdmin. unfold adminLogout. run.
    rewrite lookup_delete_eq. repeat split; try done.
  - intros Hnone. rewrite mount_isAdmin, Hnone. done.
Qed.

End Admin.

(** ** Concrete runs *)

(** A seeded store is left alone by two initializations in a row. *)
Lemma initializeSettings_seed_idempotent_witness :
  let w := Sample.world Sample.seeded [] in
  let w1 := (initializeSettings [] 0 Sample.iso w).2 in
  let w2 := (initializeSettings [] 0 Sample.iso w1).2 in
  document_exists w = true
  ∧ remote w1 = remote w ∧ writes (trace w1) = writes (trace w)
  ∧ remote w2 = remote w ∧ writes (trace w2) = writes (trace w).
Proof.
  intros w w1 w2.
  assert (document_exists w = true) as Hex by reflexivity.
  split; [exact Hex|].
  exact (proj1 (proj2 (proj2 (proj2 (proj2
    (initializeSettings_seed_idempotent [] 0 Sample.iso w))))) Hex).
Defined.

(** A live update that carries only the countdown: the three others are the
    defaults. *)
Lemma onSiteSettings_truthy_payload_defaults_witness :
  let data := VObj {["countdownSettings" := Sample.sale]} in
  let r := onSiteSettings [] 0 Sample.iso data (Sample.world Sample.seeded []) in
  truthy data = true
  ∧ shippingSettings (state r.2) = shippingSettings Sample.defaults
  ∧ countdownSettings (state r.2) = Sample.sale
  ∧ isLoading (state r.2) = false.
Proof.
  intros data r.
  assert (truthy data = true) as Hd by reflexivity.
  destruct (onSiteSettings_truthy_payload_defaults [] 0 Sample.iso data
              (Sample.world Sample.seeded []) Hd) as (_ & Hdef & Hgiven & _ & Hl).
  split; [exact Hd|]. split; [|split].
  - apply (Hdef Shipping). reflexivity.
  - apply (Hgiven Countdown). reflexivity.
  - exact Hl.
Defined.

(** A [null] live update after the sale was delivered keeps the sale. *)
Lemma onSiteSettings_absent_payload_keeps_state_witness :
  let w := (onSiteSettings [] 0 Sample.iso
              (VObj {["countdownSettings" := Sample.sale]})
              (Sample.world Sample.seeded [])).2 in
  let r := onSiteSettings [] 0 Sample.iso VNull w in
  truthy VNull = false
  ∧ countdownSettings (state r.2) = Sample.sale
  ∧ isLoading (state r.2) = false.
Proof.
  intros w r.
  assert (truthy VNull = false) as Hd by reflexivity.
  destruct (onSiteSettings_absent_payload_keeps_state [] 0 Sample.iso VNull w Hd)
    as (_ & Hsub & _ & _ & _ & Hl & _).
  split; [exact Hd|]. split; [|exact Hl].
  exact (Hsub Countdown).
Defined.

(** C3 as stated fails on a payload that is not [null] but falsy.  After a
    live update delivered the sale, the payload [false] - which is not
    [null] and has no [countdownSettings] - leaves the sale in the merged
    view, not the default countdown. *)
Lemma onSiteSettings_nonnull_falsy_payload_counterexample :
  let w := (onSiteSettings [] 0 Sample.iso
              (VObj {["countdownSettings" := Sample.sale]})
              (Sample.world Sample.seeded [])).2 in
  let data := VBool false in
  let merged := state (onSiteSettings [] 0 Sample.iso data w).2 in
  data ≠ VNull
  ∧ data ≠ VUndef
  ∧ get_prop data (sub_name Countdown) = VUndef
  ∧ sub_of Countdown merged = Sample.sale
  ∧ sub_of Countdown merged ≠ sub_of Countdown Sample.defaults.
Proof.
  intros w data merged.
  split; [discriminate|]. split; [discriminate|].
  split; [reflexivity|]. split; [reflexivity|].
  intros Heq. apply (f_equal (λ v, get_prop v "title")) in Heq.
  vm_compute in Heq. discriminate.
Defined.

(** The shipping example of the specification, from the defaults. *)
Lemma update_settings_writes_merged_subobject_witness :
  let w := Sample.world Sample.seeded [] in
  let context := SiteSettingsProvider id (state w) in
  let r := ctx_updateShippingSettings context (VObj {["minPrice" := num 400]}) w in
  let expected :=
    VObj (<["minPrice" := num 400]> (<["maxPrice" := num 800]>
         (<["freeShippingThreshold" := num 5000]>
         (<["provinces" := VArr []]> ∅)))) in
  next_fault w = None
  ∧ r.1 = Returned ()
  ∧ get_at (segments "siteSettings/shippingSettings") (remote r.2) = expected
  ∧ shippingSettings (state r.2) = expected.
Proof.
  intros w context r expected.
  assert (next_fault w = None) as Hf by reflexivity.
  split; [exact Hf|].
  apply (proj2 (proj2 (proj2
    (update_settings_writes_merged_subobject id
       (VObj {["minPrice" := num 400]}) w Hf))) (VArr [])).
  reflexivity.
Defined.

(** Switching the gate off, online and offline. *)
Lemma togglePasswordProtection_write_then_state_witness :
  let online := Sample.world Sample.seeded [] in
  let offline := Sample.world Sample.seeded [Some Sample.offline] in
  get_prop (passwordProtection (state (togglePasswordProtection false online).2))
    "enabled" = VBool false
  ∧ state (togglePasswordProtection false offline).2 = state offline
  ∧ alerts (trace (togglePasswordProtection false offline).2)
    = ["Error updating password protection setting. Please try again."].
Proof.
  intros online offline.
  assert (next_fault online = None) as Hon by reflexivity.
  assert (next_fault offline = Some Sample.offline) as Hoff by reflexivity.
  destruct (proj1 (togglePasswordProtection_write_then_state false online) Hon)
    as (_ & _ & Hflag & _).
  destruct (proj2 (togglePasswordProtection_write_then_state false offline)
              Sample.offline Hoff) as (_ & Hstate & _ & Htrace).
  split; [exact Hflag|]. split; [exact Hstate|].
  rewrite Htrace. reflexivity.
Defined.

(** The two credential pairs of the specification, and a restart. *)
Lemma adminLogin_fixed_credentials_witness :
  let w := Sample.world Sample.seeded [] in
  (adminLogin "admin@example.com" "admin123" w).1 = Returned true
  ∧ isAdmin (state (adminLogin "admin@example.com" "admin123" w).2) = true
  ∧ adminLogin "x" "y" w = (Returned false, w)
  ∧ isAdmin (state (mount [] 0 Sample.iso w).2) = false.
Proof.
  intros w.
  destruct (adminLogin_fixed_credentials [] 0 Sample.iso
              "admin@example.com" "admin123" w) as (Hiff & Hset & _ & _ & Hfresh).
  destruct (adminLogin_fixed_credentials [] 0 Sample.iso "x" "y" w)
    as (_ & _ & Hno & _).
  split; [apply Hiff; split; reflexivity|].
  split; [apply Hset; split; reflexivity|].
  split; [apply Hno; intros [H _]; discriminate H|].
  apply Hfresh. reflexivity.
Defined.

(** A wrong guess online, and the right password offline. *)
Lemma unlockSite_fails_closed_witness :
  let online := Sample.world Sample.seeded [] in
  let offline := Sample.world Sample.seeded [Some Sample.offline] in
  (unlockSite id "guess" online).1 = Returned false
  ∧ sessionStorage (unlockSite id "guess" online).2 = ∅
  ∧ (unlockSite id "password123" offline).1 = Returned false
  ∧ isUnlocked (state (unlockSite id "password123" offline).2) = false.
Proof.
  intros online offline.
  assert (next_fault online = None) as Hon by reflexivity.
  assert (get_at (segments "siteSettings/passwordProtection/password")
            (remote online) ≠ VStr "guess") as Hne
    by (vm_compute; discriminate).
  assert (next_fault offline = Some Sample.offline) as Hoff by reflexivity.
  destruct (proj1 (unlockSite_fails_closed id "guess" online) Hon Hne)
    as (Hr & _ & Hss & _).
  destruct (proj2 (unlockSite_fails_closed id "password123" offline)
              Sample.offline Hoff) as (Hr' & Hs' & _).
  split; [exact Hr|]. split; [exact Hss|]. split; [exact Hr'|].
  rewrite Hs'. reflexivity.
Defined.


(** ** More about the store *)

Lemma get_at_cons (k : string) (p : path) (root : value) :
  get_at (k :: p) root
  = match root with
    | VObj m => match m !! k with
                | Some v => get_at p v
                | None => VNull
                end
    | _ => VNull
    end.
Proof. reflexivity. Qed.

Lemma set_at_cons (k : string) (p : path) (v root : value) :
  set_at (k :: p) v root
  = VObj (<[k := set_at p v
                   (default VNull (match root with VObj m => m | _ => ∅ end !! k))]>
            (match root with VObj m => m | _ => ∅ end)).
Proof. reflexivity. Qed.

Lemma get_at_null (k : string) (p : path) : get_at (k :: p) VNull = VNull.
Proof. reflexivity. Qed.

(** A write leaves what is stored along every path that parts ways with the
    written one. *)
Lemma get_at_set_at_diverge (p q : path) (v root : value) :
  diverge p q = true →
  get_at q (set_at p v root) = get_at q root.
Proof.
  revert q root. induction p as [|k p IH]; intros [|j q] root Hd;
    try discriminate.
  simpl in Hd. rewrite set_at_cons, !get_at_cons.
  destruct (decide (k = j)) as [->|Hne].
  - rewrite lookup_insert_eq, IH by done.
    destruct root as [| | | | | |m]; simpl; rewrite ?lookup_empty; simpl;
      try (destruct q; [discriminate Hd || (destruct p; discriminate Hd)|done]).
    destruct (m !! j); simpl; [done|].
    destruct q; [destruct p; discriminate Hd|done].
  - rewrite lookup_insert_ne by done.
    destruct root; simpl; by rewrite ?lookup_empty.
Qed.

Lemma writeData_elsewhere (p : string) (v : value) (q : path) (w : World) :
  diverge (segments p) q = true →
  get_at q (remote (writeData p v w).2) = get_at q (remote w).
Proof.
  intros Hd. unfold writeData. destruct (next_fault w); simpl; [done|].
  by apply get_at_set_at_diverge.
Qed.

(** ** The password: changing it, and the gate *)

Section Password.

Variable btoa : string → string.

Abbreviation passwordPath := "siteSettings/passwordProtection/password".

Lemma changePassword_resolved (newPassword : string) (w : World) :
  next_fault w = None →
  changePassword newPassword w
  = (Returned (),
     emit (Alert "Password updated successfully!")
       (with_state
          (with_passwordProtection
             (spread_set (passwordProtection (state w)) "password" (VStr newPassword))
             (state w))
          (emit (ConsoleLog ["Password updated in Firebase"])
             (emit (RemoteWrite passwordPath (VStr newPassword) None)
                (with_remote
                   (set_at (segments passwordPath) (VStr newPassword) (remote w))
                   (with_faults (tail (faults w))
                      (emit (ConsoleLog ["Updating password in Firebase to:"; newPassword])
                         w))))))).
Proof.
  intros H. unfold changePassword. run. by rewrite writeData_resolves.
Qed.

(** X1.  [changePassword] never throws, and before anything else it prints the
    new password in clear on the console.  When the write goes through, the
    store and the local [passwordProtection.password] hold the new password,
    the other local fields of the sub-object are kept and the user is told
    of the success.  When the write is rejected, the local state and the
    store are what they were and the user is told of the failure, which is
    logged. *)
Theorem changePassword_write_then_state (newPassword : string) (w : World) :
  let r := changePassword newPassword w in
  r.1 = Returned ()
  ∧ (∃ rest, trace r.2
             = trace w
               ++ ConsoleLog ["Updating password in Firebase to:"; newPassword]
                  :: rest)
  ∧ (next_fault w = None →
     get_at (segments passwordPath) (remote r.2) = VStr newPassword
     ∧ get_prop (passwordProtection (state r.2)) "password" = VStr newPassword
     ∧ (∀ k, k ≠ "password" →
             get_prop (passwordProtection (state r.2)) k
             = get_prop (passwordProtection (state w)) k)
     ∧ alerts (trace r.2) = alerts (trace w) ++ ["Password updated successfully!"]
     ∧ logged_errors (trace r.2) = logged_errors (trace w))
  ∧ (∀ e, next_fault w = Some e →
     state r.2 = state w
     ∧ remote r.2 = remote w
     ∧ alerts (trace r.2)
       = alerts (trace w) ++ ["Error changing password. Please try again."]
     ∧ logged_errors (trace r.2)
       = logged_errors (trace w) ++ [("Error changing password:", e)]).
Proof.
  simpl. destruct (next_fault w) as [e|] eqn:Hf.
  - rewrite (changePassword_rejected _ e) by done. simpl.
    split; [done|]. split; [|split; [done|]].
    + eexists. by rewrite <-!app_assoc.
    + intros e' [= <-].
      by rewrite !alerts_snoc, !logged_errors_snoc, !app_nil_r.
  - rewrite changePassword_resolved by done. simpl.
    split; [done|]. split; [|split; [|done]].
    + eexists. by rewrite <-!app_assoc.
    + intros _. rewrite get_at_set_at.
      rewrite !alerts_snoc, !logged_errors_snoc, !app_nil_r.
      repeat split; try done.
      * by rewrite spread_set_lookup, decide_True.
      * intros k Hk. by rewrite spread_set_lookup, decide_False.
Qed.

(** X2.  After a password change that went through, [unlockSite] accepts the new
    password and nothing else: the previous password no longer opens the
    site. *)
Theorem changePassword_then_unlockSite (newPassword p : string) (w : World) :
  next_fault w = None →
  let w1 := (changePassword newPassword w).2 in
  next_fault w1 = None →
  (unlockSite btoa p w1).1 = Returned (bool_decide (p = newPassword)).
Proof.
  intros Hf w1 Hf1.
  assert (get_at (segments passwordPath) (remote w1) = VStr newPassword) as Hpw.
  { unfold w1. rewrite changePassword_resolved by done. simpl.
    apply get_at_set_at. }
  destruct (decide (p = newPassword)) as [->|Hne].
  - rewrite bool_decide_eq_true_2 by done. by apply unlockSite_match.
  - rewrite bool_decide_eq_false_2 by done.
    rewrite unlockSite_mismatch; [done|done|]. rewrite Hpw. congruence.
Qed.

Lemma togglePasswordProtection_remote (enabled : bool) (w : World) :
  remote (togglePasswordProtection enabled w).2
  = remote (writeData "siteSettings/passwordProtection/enabled" (VBool enabled) w).2.
Proof.
  destruct (next_fault w) as [e|] eqn:Hf.
  - by rewrite (togglePasswordProtection_rejected _ e), (writeData_rejects _ _ e).
  - by rewrite togglePasswordProtection_resolved, writeData_resolves.
Qed.

(** X3.  Switching the protection on or off never changes the stored password,
    and [unlockSite] does not look at the switch: after the call, whether
    its write went through or not, a password is accepted exactly when it
    is the one that was stored before. *)
Theorem togglePasswordProtection_keeps_password
    (enabled : bool) (p : string) (w : World) :
  let w1 := (togglePasswordProtection enabled w).2 in
  get_at (segments passwordPath) (remote w1)
  = get_at (segments passwordPath) (remote w)
  ∧ (next_fault w1 = None →
     ((unlockSite btoa p w1).1 = Returned true
      ↔ get_at (segments passwordPath) (remote w) = VStr p)
     ∧ ((unlockSite btoa p w1).1 = Returned false
        ↔ get_at (segments passwordPath) (remote w) ≠ VStr p)).
Proof.
  intros w1.
  assert (get_at (segments passwordPath) (remote w1)
          = get_at (segments passwordPath) (remote w)) as Hsame.
  { unfold w1. rewrite togglePasswordProtection_remote.
    by apply writeData_elsewhere. }
  split; [exact Hsame|]. intros Hf1. rewrite <-Hsame.
  destruct (strict_eq_string p (get_at (segments passwordPath) (remote w1)))
    eqn:E.
  - apply strict_eq_string_true in E.
    rewrite unlockSite_match by done.
    split; [done|]. split; [done|]. by intros [].
  - assert (get_at (segments passwordPath) (remote w1) ≠ VStr p) as Hne.
    { intros Hc. apply strict_eq_string_true in Hc. congruence. }
    rewrite unlockSite_mismatch by done. simpl.
    split; [|done]. split; [done|]. by intros Hc.
Qed.

End Password.

(** ** Unlocking, and starting again *)

Section Gate.

Variable shippingProvinces : list value.
Variable loadTime : Z.
Variable toISOString : Z → string.
Variable btoa : string → string.

Abbreviation passwordPath := "siteSettings/passwordProtection/password".
Abbreviation start := (mount shippingProvinces loadTime toISOString).
Abbreviation defaults := (defaultSettings shippingProvinces loadTime toISOString).
Abbreviation seed := (initialDocument shippingProvinces loadTime toISOString).

Lemma watches_snoc (t : list event) (e : event) :
  watches (t ++ [e])
  = watches t ++ match e with RemoteWatch p => [p] | _ => [] end.
Proof. unfold watches. rewrite omap_app. by destruct e. Qed.

Lemma unlockSite_matched (p : string) (w : World) :
  next_fault w = None →
  get_at (segments passwordPath) (remote w) = VStr p →
  let r := unlockSite btoa p w in
  r.1 = Returned true
  ∧ state r.2 = with_isUnlocked true (state w)
  ∧ sessionStorage r.2
    = <["authToken" := btoa (pretty (clock w) +:+ "_" +:+ default "" (head (rng w)))]>
        (<["siteUnlocked" := "true"]> (sessionStorage w))
  ∧ localStorage r.2 = localStorage w
  ∧ remote r.2 = remote w
  ∧ trace r.2 = trace w ++ [RemoteRead passwordPath None].
Proof.
  intros Hf Heq. unfold unlockSite. run. rewrite readData_resolves by done.
  simpl. rewrite Heq. simpl. rewrite bool_decide_eq_true_2 by done.
  unfold emit, with_faults. simpl. by destruct (rng w).
Qed.

Lemma unlockSite_true_inv (p : string) (w : World) :
  (unlockSite btoa p w).1 = Returned true →
  next_fault w = None ∧ get_at (segments passwordPath) (remote w) = VStr p.
Proof.
  intros Ht. destruct (next_fault w) as [e|] eqn:Hf.
  - by rewrite (unlockSite_rejected _ _ e) in Ht.
  - split; [done|].
    destruct (strict_eq_string p (get_at (segments passwordPath) (remote w)))
      eqn:E; [by apply strict_eq_string_true in E|].
    rewrite unlockSite_mismatch in Ht; [done|done|].
    intros Hc. apply strict_eq_string_true in Hc. congruence.
Qed.

(** X4.  An accepted password leaves [siteUnlocked] set to ["true"] and the token
    [btoa(time_random)] under [authToken] in the session storage, with the
    other entries kept, and sets [isUnlocked]; the rest of the local state
    is as before. *)
Theorem unlockSite_accepted_effects (p : string) (w : World) :
  (unlockSite btoa p w).1 = Returned true →
  let w1 := (unlockSite btoa p w).2 in
  sessionStorage w1 !! "siteUnlocked" = Some "true"
  ∧ sessionStorage w1 !! "authToken"
    = Some (btoa (pretty (clock w) +:+ "_" +:+ default "" (head (rng w))))
  ∧ (∀ k, k ≠ "siteUnlocked" → k ≠ "authToken" →
          sessionStorage w1 !! k = sessionStorage w !! k)
  ∧ isUnlocked (state w1) = true
  ∧ (∀ sub, sub_of sub (state w1) = sub_of sub (state w))
  ∧ isAdmin (state w1) = isAdmin (state w)
  ∧ isLoading (state w1) = isLoading (state w)
  ∧ currency (state w1) = currency (state w).
Proof.
  intros Ht. destruct (unlockSite_true_inv p w Ht) as [Hf Heq].
  destruct (unlockSite_matched p w Hf Heq) as (_ & Hs & Hss & _).
  simpl. rewrite Hs, Hss. simpl.
  split; [by rewrite lookup_insert_ne, lookup_insert_eq|].
  split; [by rewrite lookup_insert_eq|].
  split; [intros k H1 H2; by rewrite !lookup_insert_ne|].
  repeat split; done.
Qed.

(** X5.  Whatever the password and whatever the store answers, [unlockSite]
    returns a boolean, makes one read of the password and no write, leaves
    the store, the durable storage, the four sub-objects and [isAdmin] as
    they were, and [isUnlocked] is afterwards true exactly when it was true
    before or the password was accepted. *)
Theorem unlockSite_reads_only (p : string) (w : World) :
  let r := unlockSite btoa p w in
  ∃ accepted : bool,
    r.1 = Returned accepted
    ∧ reads (trace r.2) = reads (trace w) ++ [passwordPath]
    ∧ writes (trace r.2) = writes (trace w)
    ∧ remote r.2 = remote w
    ∧ localStorage r.2 = localStorage w
    ∧ (∀ sub, sub_of sub (state r.2) = sub_of sub (state w))
    ∧ isAdmin (state r.2) = isAdmin (state w)
    ∧ isUnlocked (state r.2) = isUnlocked (state w) || accepted.
Proof.
  simpl. destruct (next_fault w) as [e|] eqn:Hf.
  - exists false. rewrite (unlockSite_rejected _ _ e) by done. simpl.
    rewrite !reads_snoc, !writes_snoc, !app_nil_r, orb_false_r.
    repeat split; done.
  - destruct (strict_eq_string p (get_at (segments passwordPath) (remote w)))
      eqn:E.
    + apply strict_eq_string_true in E. exists true.
      destruct (unlockSite_matched p w Hf E) as (H1 & H2 & _ & H4 & H5 & H6).
      simpl in *. rewrite H1, H2, H4, H5, H6, reads_snoc, writes_snoc, app_nil_r.
      simpl. rewrite orb_true_r. repeat split; done.
    + assert (get_at (segments passwordPath) (remote w) ≠ VStr p) as Hne.
      { intros Hc. apply strict_eq_string_true in Hc. congruence. }
      exists false. rewrite unlockSite_mismatch by done. simpl.
      rewrite !reads_snoc, !writes_snoc, !app_nil_r, orb_false_r.
      repeat split; done.
Qed.

Lemma initialize_caught (w : World) :
  let r := catch (initializeSettings shippingProvinces loadTime toISOString)
             (λ error, console_error "Error initializing settings:" error) w in
  r.1 = Returned ()
  ∧ state r.2 = state w
  ∧ localStorage r.2 = localStorage w
  ∧ sessionStorage r.2 = sessionStorage w
  ∧ watches (trace r.2) = watches (trace w).
Proof.
  simpl. unfold catch, try_catch.
  destruct (next_fault w) as [e|] eqn:Hf.
  - rewrite (initialize_rejected _ _ _ e) by done. unfold console_error. run.
    by rewrite !watches_snoc, !app_nil_r.
  - destruct (document_exists w) eqn:Hex.
    + rewrite initialize_existing by done. simpl.
      by rewrite !watches_snoc, !app_nil_r.
    + rewrite initialize_missing by done.
      destruct (next_fault (emit _ _)); unfold console_error; run;
        by rewrite !watches_snoc, !app_nil_r.
Qed.

Lemma mount_unfold (w : World) :
  let w0 := with_state defaults w in
  let w1 := (catch (initializeSettings shippingProvinces loadTime toISOString)
               (λ error, console_error "Error initializing settings:" error) w0).2 in
  let w2 := emit (RemoteWatch "siteSettings") w1 in
  let w3 := if bool_decide (sessionStorage w !! "siteUnlocked" = Some "true")
            then with_state (with_isUnlocked true (state w2)) w2 else w2 in
  let w4 := if bool_decide (localStorage w !! "adminLoggedIn" = Some "true")
            then with_state (with_isAdmin true (state w3)) w3 else w3 in
  start w = (Returned (), w4).
Proof.
  simpl.
  pose proof (initialize_caught (with_state defaults w)) as Hc. simpl in Hc.
  destruct Hc as (Hr & Hs & Hl & Hss & _).
  unfold mount, mountEffect. unfold mbind at 1 2. unfold Prog_bind at 1 2.
  unfold perform at 1. cbv beta iota.
  destruct (catch _ _ _) as [o w1]. simpl in *. subst o.
  run. rewrite Hss.
  destruct (bool_decide (sessionStorage w !! "siteUnlocked" = Some "true"));
    simpl; rewrite Hl;
    by destruct (bool_decide (localStorage w !! "adminLoggedIn" = Some "true")).
Qed.

(** X6.  A start never throws, whatever the store answers.  It leaves the two
    storages untouched, subscribes once to [siteSettings], shows the
    defaults with [isLoading] true, and restores each gate flag from its
    storage: the flag is true exactly when the stored string is ["true"]. *)
Theorem mount_restores_gates (w : World) :
  let r := start w in
  r.1 = Returned ()
  ∧ isUnlocked (state r.2)
    = bool_decide (sessionStorage w !! "siteUnlocked" = Some "true")
  ∧ isAdmin (state r.2)
    = bool_decide (localStorage w !! "adminLoggedIn" = Some "true")
  ∧ (∀ sub, sub_of sub (state r.2) = sub_of sub defaults)
  ∧ isLoading (state r.2) = true
  ∧ currency (state r.2) = "DZD"
  ∧ sessionStorage r.2 = sessionStorage w
  ∧ localStorage r.2 = localStorage w
  ∧ watches (trace r.2) = watches (trace w) ++ ["siteSettings"].
Proof.
  simpl. rewrite mount_unfold.
  pose proof (initialize_caught (with_state defaults w)) as Hc. simpl in Hc.
  destruct Hc as (_ & Hs & Hl & Hss & Hw).
  destruct (bool_decide (sessionStorage w !! "siteUnlocked" = Some "true"));
    destruct (bool_decide (localStorage w !! "adminLoggedIn" = Some "true"));
    simpl; rewrite ?Hs, ?Hl, ?Hss, watches_snoc, Hw; simpl;
    repeat split; try done; try by intros [].
Qed.

Lemma mount_outside (w : World) :
  let w1 := (catch (initializeSettings shippingProvinces loadTime toISOString)
               (λ error, console_error "Error initializing settings:" error)
               (with_state defaults w)).2 in
  remote (start w).2 = remote w1
  ∧ faults (start w).2 = faults w1
  ∧ trace (start w).2 = trace w1 ++ [RemoteWatch "siteSettings"].
Proof.
  simpl. rewrite mount_unfold.
  destruct (bool_decide (sessionStorage w !! "siteUnlocked" = Some "true"));
    by destruct (bool_decide (localStorage w !! "adminLoggedIn" = Some "true")).
Qed.

Lemma mount_isUnlocked (w : World) :
  isUnlocked (state (start w).2)
  = bool_decide (sessionStorage w !! "siteUnlocked" = Some "true").
Proof.
  rewrite mount_unfold.
  pose proof (initialize_caught (with_state defaults w)) as Hc. simpl in Hc.
  destruct Hc as (_ & Hs & _).
  destruct (bool_decide (sessionStorage w !! "siteUnlocked" = Some "true"));
    destruct (bool_decide (localStorage w !! "adminLoggedIn" = Some "true"));
    simpl; by rewrite ?Hs.
Qed.

(** X7.  Both gates survive a restart: after an accepted password a fresh start
    over the same session storage has [isUnlocked] true, and after an
    accepted admin login a fresh start over the same durable storage has
    [isAdmin] true, whatever the store answers during the start. *)
Theorem gates_survive_restart (w : World) :
  (∀ p, (unlockSite btoa p w).1 = Returned true →
        isUnlocked (state (start (unlockSite btoa p w).2).2) = true)
  ∧ (∀ email password,
        (adminLogin email password w).1 = Returned true →
        isAdmin (state (start (adminLogin email password w).2).2) = true).
Proof.
  split.
  - intros p Ht. destruct (unlockSite_true_inv p w Ht) as [Hf Heq].
    destruct (unlockSite_matched p w Hf Heq) as (_ & _ & Hss & _).
    rewrite mount_isUnlocked. simpl in Hss. rewrite Hss.
    by rewrite lookup_insert_ne, lookup_insert_eq.
  - intros email password Ht.
    destruct (decide (email = "admin@example.com" ∧ password = "admin123"))
      as [[-> ->]|Hno].
    + rewrite mount_isAdmin, adminLogin_accepted. simpl.
      by rewrite lookup_insert_eq.
    + by rewrite adminLogin_refused in Ht.
Qed.

(** X8.  When the first read of a start is rejected, or the seed write that
    follows a read of an empty store is, the failure is logged under
    [Error initializing settings:] and the store is left as it was; the
    start goes on and subscribes all the same. *)
Theorem mount_logs_failed_initialization (e : js_error) (w : World) :
  (next_fault w = Some e
   ∨ (next_fault w = None ∧ document_exists w = false
      ∧ next_fault (with_faults (tail (faults w)) w) = Some e)) →
  let r := start w in
  r.1 = Returned ()
  ∧ logged_errors (trace r.2)
    = logged_errors (trace w) ++ [("Error initializing settings:", e)]
  ∧ remote r.2 = remote w
  ∧ watches (trace r.2) = watches (trace w) ++ ["siteSettings"].
Proof.
  intros Hcase. simpl.
  destruct (mount_outside w) as (Hr & _ & Ht). simpl in Hr, Ht.
  rewrite Hr, Ht. split; [by rewrite mount_unfold|].
  unfold catch, try_catch.
  destruct Hcase as [Hf|(Hf & Hex & Hf2)].
  - rewrite (initialize_rejected _ _ _ e) by done. unfold console_error. run.
    by rewrite !logged_errors_snoc, !watches_snoc, !app_nil_r.
  - rewrite initialize_missing by done.
    change (next_fault (emit ?ev (with_faults ?fs (with_state ?st w))))
      with (next_fault (with_faults fs w)).
    simpl in Hf2. simpl. rewrite Hf2. unfold console_error. run.
    by rewrite !logged_errors_snoc, !watches_snoc, !app_nil_r.
Qed.

Lemma seed_password (root : value) :
  get_at (segments passwordPath) (set_at (segments "siteSettings") seed root)
  = VStr "password123".
Proof.
  rewrite segments_password, segments_siteSettings.
  rewrite set_at_cons, get_at_cons, lookup_insert_eq. reflexivity.
Qed.

Lemma seed_sub (sub : SubObject) :
  get_prop seed (sub_name sub) = sub_of sub defaults.
Proof. by destruct sub. Qed.

(** X9.  The first start against an empty store, with the read and the write
    going through, leaves the default document in the store.  From then on
    [unlockSite] accepts exactly [password123], and when the subscription
    delivers the stored document the local view is the defaults with
    [isLoading] false. *)
Theorem first_start_seeds_default_password (w : World) :
  next_fault w = None →
  document_exists w = false →
  next_fault (with_faults (tail (faults w)) w) = None →
  let w1 := (start w).2 in
  get_at (segments "siteSettings") (remote w1) = seed
  ∧ (∀ p, next_fault w1 = None →
          (unlockSite btoa p w1).1 = Returned (bool_decide (p = "password123")))
  ∧ (let w2 := (onSiteSettings shippingProvinces loadTime toISOString
                  (get_at (segments "siteSettings") (remote w1)) w1).2 in
     (∀ sub, sub_of sub (state w2) = sub_of sub defaults)
     ∧ isLoading (state w2) = false).
Proof.
  intros Hf Hex Hf2 w1.
  assert (remote w1 = set_at (segments "siteSettings") seed (remote w)) as Hr.
  { unfold w1. destruct (mount_outside w) as (Hr & _). simpl in Hr.
    rewrite Hr. unfold catch, try_catch.
    rewrite initialize_missing by done.
    change (next_fault (emit ?ev (with_faults ?fs (with_state ?st w))))
      with (next_fault (with_faults fs w)).
    simpl in Hf2. simpl. by rewrite Hf2. }
  rewrite Hr, get_at_set_at. split; [done|]. split.
  - intros p Hf1.
    assert (get_at (segments passwordPath) (remote w1) = VStr "password123")
      as Hpw by (rewrite Hr; apply seed_password).
    destruct (decide (p = "password123")) as [->|Hne].
    + rewrite bool_decide_eq_true_2 by done. by apply unlockSite_match.
    + rewrite bool_decide_eq_false_2 by done.
      rewrite unlockSite_mismatch; [done|done|]. rewrite Hpw. congruence.
  - cbv zeta. rewrite onData_truthy by done.
    split; [|done]. intros sub.
    pose proof (seed_sub sub) as Hsub.
    destruct sub; simpl in *; by rewrite Hsub.
Qed.

End Gate.

(** ** Live updates and sub-object updates: what they leave alone *)

Section Frames.

Variable shippingProvinces : list value.
Variable loadTime : Z.
Variable toISOString : Z → string.

Abbreviation onData := (onSiteSettings shippingProvinces loadTime toISOString).

Lemma onData_falsy (data : value) (w : World) :
  truthy data = false →
  onData data w = (Returned (), with_state (with_isLoading false (state w)) w).
Proof. intros Hd. unfold onSiteSettings. by rewrite Hd. Qed.

(** X10.  A live update, whatever it delivers, returns, makes no request and
    prints nothing, and leaves the gate flags, the currency, the storages
    and the store as they were; [isLoading] is false afterwards. *)
Theorem onSiteSettings_leaves_gates (data : value) (w : World) :
  let r := onData data w in
  r.1 = Returned ()
  ∧ isUnlocked (state r.2) = isUnlocked (state w)
  ∧ isAdmin (state r.2) = isAdmin (state w)
  ∧ currency (state r.2) = currency (state w)
  ∧ isLoading (state r.2) = false
  ∧ sessionStorage r.2 = sessionStorage w
  ∧ localStorage r.2 = localStorage w
  ∧ remote r.2 = remote w
  ∧ faults r.2 = faults w
  ∧ trace r.2 = trace w.
Proof.
  simpl. destruct (truthy data) eqn:Hd.
  - by rewrite onData_truthy.
  - by rewrite onData_falsy.
Qed.

(** X11.  A payload that passes [if (data)] decides the four sub-objects alone:
    what the local state held before, from an earlier payload or from a
    local update, has no influence.  Delivering any payload a second time
    changes nothing. *)
Theorem onSiteSettings_last_update_wins (data : value) (w : World) :
  (truthy data = true →
   ∀ w' sub, sub_of sub (state (onData data w).2)
             = sub_of sub (state (onData data w').2))
  ∧ onData data (onData data w).2 = onData data w.
Proof.
  split.
  - intros Hd w' sub. by rewrite !onData_sub.
  - destruct (truthy data) eqn:Hd.
    + by rewrite !onData_truthy.
    + by rewrite !onData_falsy.
Qed.

Lemma diverge_subobjects (sub other : SubObject) :
  other ≠ sub →
  diverge (segments ("siteSettings/" +:+ sub_name sub))
          (segments ("siteSettings/" +:+ sub_name other)) = true.
Proof. by destruct sub, other. Qed.

Lemma written_touches_only (sub : SubObject) (merged : value)
    (s' : SiteSettings) (w : World) (r : Outcome () * World) :
  (∀ e, next_fault w = Some e →
        r = (Thrown e,
             emit (RemoteWrite ("siteSettings/" +:+ sub_name sub) merged (Some e))
               (with_faults (tail (faults w)) w))) →
  (next_fault w = None →
   r = (Returned (),
        with_state s'
          (emit (RemoteWrite ("siteSettings/" +:+ sub_name sub) merged None)
             (with_remote
                (set_at (segments ("siteSettings/" +:+ sub_name sub)) merged (remote w))
                (with_faults (tail (faults w)) w))))) →
  (∀ other, other ≠ sub → sub_of other s' = sub_of other (state w)) →
  isUnlocked s' = isUnlocked (state w) →
  isAdmin s' = isAdmin (state w) →
  isLoading s' = isLoading (state w) →
  currency s' = currency (state w) →
  touches_only sub w r.
Proof.
  intros Hrej Hres Hsub Hu Ha Hl Hc. unfold touches_only.
  destruct (next_fault w) as [e|] eqn:Hf.
  - rewrite (Hrej e eq_refl). simpl. repeat split; done.
  - rewrite (Hres eq_refl). simpl.
    split; [intros q Hq; by apply get_at_set_at_diverge|].
    split; [intros other Hne; by apply get_at_set_at_diverge, diverge_subobjects|].
    repeat split; try done. all: by intros [].
Qed.

(** X12.  Each of the three sub-object updates leaves alone everything but its
    own sub-object: in the store, whatever lies on a path that parts ways
    with its own, the three other sub-objects among it; locally, the other
    sub-objects, the flags and the currency; and both storages.  When its
    write is rejected it changes neither the local state nor the store. *)
Theorem update_settings_touch_only_their_subobject
    (settings : SiteSettings) (newSettings : value) (w : World) :
  touches_only Countdown w (updateCountdownSettings settings newSettings w)
  ∧ touches_only Shipping w (updateShippingSettings settings newSettings w)
  ∧ touches_only Social w (updateSocialMediaSettings settings newSettings w).
Proof.
  split; [|split].
  - eapply written_touches_only.
    + intros e He. by apply updateCountdownSettings_rejected.
    + intros Hf. by apply updateCountdownSettings_resolved.
    + intros other Hne. by destruct other.
    + done.
    + done.
    + done.
    + done.
  - eapply written_touches_only.
    + intros e He. by apply updateShippingSettings_rejected.
    + intros Hf. by apply updateShippingSettings_resolved.
    + intros other Hne. by destruct other.
    + done.
    + done.
    + done.
    + done.
  - eapply written_touches_only.
    + intros e He. by apply updateSocialMediaSettings_rejected.
    + intros Hf. by apply updateSocialMediaSettings_resolved.
    + intros other Hne. by destruct other.
    + done.
    + done.
    + done.
    + done.
Qed.

End Frames.

(** ** Invariants of a session *)

Section Sessions.

Variable shippingProvinces : list value.
Variable loadTime : Z.
Variable toISOString : Z → string.
Variable btoa : string → string.

Abbreviation event_after := (after shippingProvinces loadTime toISOString btoa).
Abbreviation run_session := (session shippingProvinces loadTime toISOString btoa).
Abbreviation start := (mount shippingProvinces loadTime toISOString).
Abbreviation defaults := (defaultSettings shippingProvinces loadTime toISOString).

Lemma after_local_change (a : action) (w : World) :
  local_change w (event_after a w).
Proof.
  destruct a as [p|enabled|newPassword|settings newSettings
                 |settings newSettings|settings newSettings
                 |email password| |data]; simpl.
  - destruct (next_fault w) as [e|] eqn:Hf.
    + rewrite (unlockSite_rejected _ _ e) by done. by apply change_none.
    + destruct (strict_eq_string p
        (get_at (segments "siteSettings/passwordProtection/password") (remote w)))
        eqn:E.
      * apply strict_eq_string_true in E.
        destruct (unlockSite_matched btoa p w Hf E) as (_ & Hs & Hss & Hl & _).
        by eapply change_unlocked.
      * rewrite unlockSite_mismatch; [by apply change_none|done|].
        intros Hc. apply strict_eq_string_true in Hc. congruence.
  - destruct (next_fault w) as [e|] eqn:Hf.
    + rewrite (togglePasswordProtection_rejected _ e) by done.
      by apply change_none.
    + rewrite togglePasswordProtection_resolved by done.
      refine (change_subobject _ _ Password _ _ eq_refl _ _ _ _ _ _ _); try done.
      intros other Hne. by destruct other.
  - destruct (next_fault w) as [e|] eqn:Hf.
    + rewrite (changePassword_rejected _ e) by done. by apply change_none.
    + rewrite changePassword_resolved by done.
      refine (change_subobject _ _ Password _ _ eq_refl _ _ _ _ _ _ _); try done.
      intros other Hne. by destruct other.
  - destruct (next_fault w) as [e|] eqn:Hf.
    + rewrite (updateCountdownSettings_rejected _ _ e) by done.
      by apply change_none.
    + rewrite updateCountdownSettings_resolved by done.
      refine (change_subobject _ _ Countdown _ _ eq_refl _ _ _ _ _ _ _); try done.
      intros other Hne. by destruct other.
  - destruct (next_fault w) as [e|] eqn:Hf.
    + rewrite (updateShippingSettings_rejected _ _ e) by done.
      by apply change_none.
    + rewrite updateShippingSettings_resolved by done.
      refine (change_subobject _ _ Shipping _ _ eq_refl _ _ _ _ _ _ _); try done.
      intros other Hne. by destruct other.
  - destruct (next_fault w) as [e|] eqn:Hf.
    + rewrite (updateSocialMediaSettings_rejected _ _ e) by done.
      by apply change_none.
    + rewrite updateSocialMediaSettings_resolved by done.
      refine (change_subobject _ _ Social _ _ eq_refl _ _ _ _ _ _ _); try done.
      intros other Hne. by destruct other.
  - destruct (decide (email = "admin@example.com" ∧ password = "admin123"))
      as [[-> ->]|Hno].
    + rewrite adminLogin_accepted. by apply change_admin_in.
    + rewrite adminLogin_refused by done. by apply change_none.
  - by apply change_admin_out.
  - destruct (truthy data) eqn:Hd.
    + apply change_delivered; try by rewrite onData_truthy.
      intros sub _. rewrite onData_sub by done.
      apply or_else_truthy, defaults_truthy.
    + rewrite onData_falsy by done.
      apply change_delivered; try done; intros sub Hsub; by destruct sub.
Qed.

Lemma after_gates (a : action) (w : World) :
  gates_mirror_storage w → gates_mirror_storage (event_after a w).
Proof.
  intros [Hu Ha]. unfold gates_mirror_storage.
  destruct (after_local_change a w)
    as [Hs Hss Hl|sub x _ _ _ Hu' Ha' _ _ Hss Hl|token Hs Hss Hl
        |Hs Hss Hl|Hs Hss Hl|_ Hu' Ha' _ _ Hss Hl].
  - by rewrite Hs, Hss, Hl.
  - by rewrite Hu', Ha', Hss, Hl.
  - rewrite Hs, Hss, Hl. simpl.
    by rewrite lookup_insert_ne, lookup_insert_eq.
  - rewrite Hs, Hss, Hl. simpl. by rewrite lookup_insert_eq.
  - rewrite Hs, Hss, Hl. simpl. by rewrite lookup_delete_eq.
  - by rewrite Hu', Ha', Hss, Hl.
Qed.

Lemma after_populated (a : action) (w : World) :
  populated (state w) → populated (state (event_after a w)).
Proof.
  intros Hp.
  destruct (after_local_change a w)
    as [Hs _ _|sub x Hx Hsub Hother _ _ _ _ _ _|token Hs _ _
        |Hs _ _|Hs _ _|Hd _ _ _ _ _ _]; intros s.
  - rewrite Hs. apply Hp.
  - assert (s = sub ∨ s ≠ sub) as [->|Hne]
      by (destruct s, sub; (by left) || (by right)).
    + by rewrite Hsub.
    + rewrite Hother by done. apply Hp.
  - rewrite Hs. specialize (Hp s). by destruct s.
  - rewrite Hs. specialize (Hp s). by destruct s.
  - rewrite Hs. specialize (Hp s). by destruct s.
  - apply Hd, Hp.
Qed.

Lemma after_flags (a : action) (w : World) :
  currency (state (event_after a w)) = currency (state w)
  ∧ (isUnlocked (state w) = true → isUnlocked (state (event_after a w)) = true)
  ∧ (isLoading (state w) = false → isLoading (state (event_after a w)) = false).
Proof.
  destruct (after_local_change a w)
    as [Hs _ _|sub x _ _ _ Hu _ Hl Hc _ _|token Hs _ _
        |Hs _ _|Hs _ _|_ Hu _ Hl Hc _ _].
  - by rewrite Hs.
  - by rewrite Hu, Hl, Hc.
  - by rewrite Hs.
  - by rewrite Hs.
  - by rewrite Hs.
  - by rewrite Hu, Hl, Hc.
Qed.

Lemma mount_storages (w : World) :
  sessionStorage (start w).2 = sessionStorage w
  ∧ localStorage (start w).2 = localStorage w.
Proof.
  rewrite mount_unfold.
  pose proof (initialize_caught shippingProvinces loadTime toISOString
                (with_state defaults w)) as (_ & _ & Hl & Hss & _).
  simpl in Hl, Hss.
  destruct (bool_decide (sessionStorage w !! "siteUnlocked" = Some "true"));
    by destruct (bool_decide (localStorage w !! "adminLoggedIn" = Some "true")).
Qed.

Lemma session_cons (a : action) (actions : list action) (w : World) :
  run_session (a :: actions) w = run_session actions (event_after a w).
Proof. reflexivity. Qed.

(** X14.  Throughout a session, whatever is called and delivered and whatever
    the store answers, the gate flags say what the storages say:
    [isUnlocked] is true exactly when the session storage holds
    [siteUnlocked] = ["true"], and [isAdmin] exactly when the durable
    storage holds [adminLoggedIn] = ["true"]. *)
Theorem session_gates_mirror_storage (actions : list action) (w : World) :
  gates_mirror_storage (run_session actions (start w).2)
  ∧ (gates_mirror_storage w → gates_mirror_storage (run_session actions w)).
Proof.
  assert (∀ w0, gates_mirror_storage w0 →
                gates_mirror_storage (run_session actions w0)) as Hkeep.
  { induction actions as [|a actions IH]; intros w0 H0; [done|].
    rewrite session_cons. by apply IH, after_gates. }
  split; [|apply Hkeep].
  apply Hkeep. destruct (mount_storages w) as [Hss Hl]. split.
  - rewrite Hss. apply mount_isUnlocked.
  - rewrite Hl. apply mount_isAdmin.
Qed.

Lemma session_populated (actions : list action) (w : World) :
  populated (state w) → populated (state (run_session actions w)).
Proof.
  revert w. induction actions as [|a actions IH]; intros w H0; [done|].
  rewrite session_cons. by apply IH, after_populated.
Qed.

Lemma session_currency (actions : list action) (w : World) :
  currency (state (run_session actions w)) = currency (state w).
Proof.
  revert w. induction actions as [|a actions IH]; intros w; [done|].
  rewrite session_cons, IH. exact (proj1 (after_flags a w)).
Qed.

(** X15.  Throughout a session the local view stays populated: each of the four
    sub-objects holds a truthy value, never [null] or [undefined], and the
    currency stays [DZD]. *)
Theorem session_view_populated (actions : list action) (w : World) :
  populated (state (run_session actions (start w).2))
  ∧ currency (state (run_session actions (start w).2)) = "DZD".
Proof.
  pose proof (mount_unfold shippingProvinces loadTime toISOString w) as Hm.
  pose proof (initialize_caught shippingProvinces loadTime toISOString
                (with_state defaults w)) as (_ & Hs & _).
  simpl in Hm, Hs.
  assert (populated (state (start w).2) ∧ currency (state (start w).2) = "DZD")
    as [H1 H2].
  { rewrite Hm.
    destruct (bool_decide (sessionStorage w !! "siteUnlocked" = Some "true"));
      destruct (bool_decide (localStorage w !! "adminLoggedIn" = Some "true"));
      simpl; rewrite ?Hs; (split; [by intros []|done]). }
  split; [by apply session_populated|]. by rewrite session_currency.
Qed.

(** X16.  Nothing in a session locks the site again or brings the loading state
    back: once [isUnlocked] is true it stays true, and once [isLoading] is
    false it stays false, through every later call and live update. *)
Theorem session_flags_monotone (actions : list action) (w : World) :
  (isUnlocked (state w) = true →
   isUnlocked (state (run_session actions w)) = true)
  ∧ (isLoading (state w) = false →
     isLoading (state (run_session actions w)) = false).
Proof.
  revert w. induction actions as [|a actions IH]; intros w; [done|].
  rewrite session_cons. destruct (IH (event_after a w)) as [IHu IHl].
  destruct (after_flags a w) as (_ & Hu & Hl).
  split; intros H; [apply IHu, Hu, H|apply IHl, Hl, H].
Qed.

End Sessions.

(** ** The admin gate is local *)

Lemma adminLogin_other_pair (email password : string) (w : World) :
  ¬ (email = "admin@example.com" ∧ password = "admin123") →
  adminLogin email password w = (Returned false, w).
Proof.
  intros Hno. unfold adminLogin. run.
  destruct (bool_decide (email = "admin@example.com")) eqn:E1; [|done].
  destruct (bool_decide (password = "admin123")) eqn:E2; [|done].
  apply bool_decide_eq_true in E1, E2. destruct Hno. by split.
Qed.

(** X17.  [adminLogin] and [adminLogout] work without the store: they make no
    request and print nothing, they leave the store, the fault schedule,
    the session storage, [isUnlocked] and the four sub-objects as they
    were, and the answer of [adminLogin] is the same in every world. *)
Theorem admin_gate_is_local (email password : string) (w : World) :
  let r := adminLogin email password w in
  let out := adminLogout w in
  (∀ w', (adminLogin email password w').1 = r.1)
  ∧ (∃ b, r.1 = Returned b)
  ∧ trace r.2 = trace w ∧ faults r.2 = faults w ∧ remote r.2 = remote w
  ∧ sessionStorage r.2 = sessionStorage w
  ∧ isUnlocked (state r.2) = isUnlocked (state w)
  ∧ (∀ sub, sub_of sub (state r.2) = sub_of sub (state w))
  ∧ out.1 = Returned ()
  ∧ trace out.2 = trace w ∧ faults out.2 = faults w ∧ remote out.2 = remote w
  ∧ sessionStorage out.2 = sessionStorage w
  ∧ isUnlocked (state out.2) = isUnlocked (state w)
  ∧ (∀ sub, sub_of sub (state out.2) = sub_of sub (state w)).
Proof.
  simpl.
  destruct (decide (email = "admin@example.com" ∧ password = "admin123"))
    as [[-> ->]|Hno].
  - split; [done|]. split; [by exists true|].
    repeat split; try done; try by intros [].
  - rewrite adminLogin_other_pair by done.
    split; [intros w'; by rewrite adminLogin_other_pair|].
    split; [by exists false|].
    repeat split; try done; try by intros [].
Qed.

(** X18.  Logging out undoes logging in: from a world that is not logged in (no
    durable flag, [isAdmin] false), an accepted [adminLogin] followed by
    [adminLogout] gives back exactly the world it started from. *)
Theorem adminLogin_then_adminLogout_restores (w : World) :
  localStorage w !! "adminLoggedIn" = None →
  isAdmin (state w) = false →
  (adminLogout (adminLogin "admin@example.com" "admin123" w).2).2 = w.
Proof.
  intros Hl Ha. rewrite adminLogin_accepted. unfold adminLogout. run.
  destruct w as [r f ss ls st c g t]. destruct st as [cs pp sh sm iu ia il cu].
  simpl in *. subst ia. unfold with_state, with_localStorage, with_isAdmin.
  simpl. by rewrite delete_insert_id.
Qed.

(** ** More concrete runs *)

(** Changing the password online, and trying to offline. *)
Lemma changePassword_write_then_state_witness :
  let online := Sample.world Sample.seeded [] in
  let offline := Sample.world Sample.seeded [Some Sample.offline] in
  get_at (segments "siteSettings/passwordProtection/password")
    (remote (changePassword "hunter2" online).2) = VStr "hunter2"
  ∧ alerts (trace (changePassword "hunter2" online).2)
    = ["Password updated successfully!"]
  ∧ state (changePassword "hunter2" offline).2 = state offline
  ∧ alerts (trace (changePassword "hunter2" offline).2)
    = ["Error changing password. Please try again."].
Proof.
  intros online offline.
  assert (next_fault online = None) as Hon by reflexivity.
  assert (next_fault offline = Some Sample.offline) as Hoff by reflexivity.
  destruct (changePassword_write_then_state "hunter2" online)
    as (_ & _ & Hok & _).
  destruct (changePassword_write_then_state "hunter2" offline)
    as (_ & _ & _ & Hko).
  destruct (Hok Hon) as (Hstore & _ & _ & Halert & _).
  destruct (Hko Sample.offline Hoff) as (Hstate & _ & Halert' & _).
  split; [exact Hstore|]. split; [exact Halert|].
  split; [exact Hstate|exact Halert'].
Defined.

(** After the change the new password opens the site and the seeded one
    does not. *)
Lemma changePassword_then_unlockSite_witness :
  let w := Sample.world Sample.seeded [] in
  let w1 := (changePassword "hunter2" w).2 in
  (unlockSite id "hunter2" w1).1 = Returned true
  ∧ (unlockSite id "password123" w1).1 = Returned false.
Proof.
  intros w w1.
  assert (next_fault w = None) as Hf by reflexivity.
  assert (next_fault w1 = None) as Hf1 by reflexivity.
  split.
  - exact (changePassword_then_unlockSite id "hunter2" "hunter2" w Hf Hf1).
  - exact (changePassword_then_unlockSite id "hunter2" "password123" w Hf Hf1).
Defined.

(** With the protection switched off the seeded password is still the one
    that is accepted. *)
Lemma togglePasswordProtection_keeps_password_witness :
  let w := Sample.world Sample.seeded [] in
  let w1 := (togglePasswordProtection false w).2 in
  (unlockSite id "password123" w1).1 = Returned true
  ∧ (unlockSite id "guess" w1).1 = Returned false.
Proof.
  intros w w1.
  assert (next_fault w1 = None) as Hf1 by reflexivity.
  destruct (proj2 (togglePasswordProtection_keeps_password id false "password123" w) Hf1)
    as [Hyes _].
  destruct (proj2 (togglePasswordProtection_keeps_password id false "guess" w) Hf1)
    as [_ Hno].
  split.
  - apply Hyes. reflexivity.
  - apply Hno. vm_compute. discriminate.
Defined.

(** The seeded password is accepted and the session storage filled. *)
Lemma unlockSite_accepted_effects_witness :
  let w := Sample.world Sample.seeded [] in
  let w1 := (unlockSite id "password123" w).2 in
  (unlockSite id "password123" w).1 = Returned true
  ∧ sessionStorage w1 !! "siteUnlocked" = Some "true"
  ∧ sessionStorage w1 !! "authToken" = Some "1767225600000_k3x9q0zab"
  ∧ isUnlocked (state w1) = true.
Proof.
  intros w w1.
  assert ((unlockSite id "password123" w).1 = Returned true) as Ht by reflexivity.
  destruct (unlockSite_accepted_effects id "password123" w Ht)
    as (H1 & H2 & _ & H4 & _).
  split; [exact Ht|]. split; [exact H1|]. split; [|exact H4].
  etrans; [exact H2|]. vm_compute. reflexivity.
Defined.

(** Unlock, log in, close the tab's page and start again. *)
Lemma gates_survive_restart_witness :
  let w := Sample.world Sample.seeded [] in
  isUnlocked (state (mount [] 0 Sample.iso (unlockSite id "password123" w).2).2)
  = true
  ∧ isAdmin (state (mount [] 0 Sample.iso
                      (adminLogin "admin@example.com" "admin123" w).2).2)
    = true.
Proof.
  intros w.
  destruct (gates_survive_restart [] 0 Sample.iso id w) as [Hu Ha].
  split.
  - apply Hu. reflexivity.
  - apply Ha. reflexivity.
Defined.

(** A start while the store is unreachable. *)
Lemma mount_logs_failed_initialization_witness :
  let w := Sample.world VNull [Some Sample.offline] in
  let r := mount [] 0 Sample.iso w in
  r.1 = Returned ()
  ∧ logged_errors (trace r.2) = [("Error initializing settings:", Sample.offline)]
  ∧ remote r.2 = VNull
  ∧ watches (trace r.2) = ["siteSettings"].
Proof.
  intros w r.
  assert (next_fault w = Some Sample.offline) as Hf by reflexivity.
  exact (mount_logs_failed_initialization [] 0 Sample.iso Sample.offline w
           (or_introl Hf)).
Defined.

(** The very first start, against an empty store. *)
Lemma first_start_seeds_default_password_witness :
  let w := Sample.world VNull [] in
  let w1 := (mount [] 0 Sample.iso w).2 in
  remote w1 = Sample.seeded
  ∧ (unlockSite id "password123" w1).1 = Returned true
  ∧ (unlockSite id "" w1).1 = Returned false.
Proof.
  intros w w1.
  assert (next_fault w = None) as Hf by reflexivity.
  assert (document_exists w = false) as Hex by reflexivity.
  assert (next_fault (with_faults (tail (faults w)) w) = None) as Hf2
    by reflexivity.
  assert (next_fault w1 = None) as Hf1 by reflexivity.
  destruct (first_start_seeds_default_password [] 0 Sample.iso id w Hf Hex Hf2)
    as (_ & Hpw & _).
  split; [reflexivity|]. split.
  - exact (Hpw "password123" Hf1).
  - exact (Hpw "" Hf1).
Defined.

(** A full document replaces a locally changed countdown. *)
Lemma onSiteSettings_last_update_wins_witness :
  let w := Sample.world Sample.seeded [] in
  let changed := (updateCountdownSettings (state w)
                    (VObj {["title" := VStr "Flash"]}) w).2 in
  let data := VObj {["countdownSettings" := Sample.sale]} in
  truthy data = true
  ∧ countdownSettings (state (onSiteSettings [] 0 Sample.iso data changed).2)
    = countdownSettings (state (onSiteSettings [] 0 Sample.iso data w).2).
Proof.
  intros w changed data.
  assert (truthy data = true) as Hd by reflexivity.
  split; [exact Hd|].
  exact (proj1 (onSiteSettings_last_update_wins [] 0 Sample.iso data changed)
           Hd w Countdown).
Defined.

(** A shipping update leaves the stored countdown where it is. *)
Lemma update_settings_touch_only_their_subobject_witness :
  let w := Sample.world Sample.seeded [] in
  let r := updateShippingSettings (state w) (VObj {["minPrice" := num 400]}) w in
  get_at (segments "siteSettings/countdownSettings") (remote r.2)
  = get_at (segments "siteSettings/countdownSettings") (remote w)
  ∧ countdownSettings (state r.2) = countdownSettings (state w).
Proof.
  intros w r.
  destruct (update_settings_touch_only_their_subobject (state w)
              (VObj {["minPrice" := num 400]}) w)
    as (_ & (_ & Hstore & Hlocal & _) & _).
  split.
  - apply (Hstore Countdown). discriminate.
  - apply (Hlocal Countdown). discriminate.
Defined.

(** Two shipping updates from the same render: the first is lost. *)
Lemma updateShippingSettings_same_render_witness :
  let w := Sample.world Sample.seeded [] in
  let w1 := (updateShippingSettings (state w) (VObj {["minPrice" := num 400]}) w).2 in
  let w2 := (updateShippingSettings (state w) (VObj {["maxPrice" := num 900]}) w1).2 in
  get_prop (shippingSettings (state w1)) "minPrice" = num 400
  ∧ get_prop (shippingSettings (state w2)) "minPrice" = num 300
  ∧ get_prop (shippingSettings (state w2)) "maxPrice" = num 900.
Proof.
  intros w w1 w2.
  assert (next_fault w = None) as Hf by reflexivity.
  assert (next_fault (with_faults (tail (faults w)) w) = None) as Hf2
    by reflexivity.
  pose proof (updateShippingSettings_same_render (state w)
                (VObj {["minPrice" := num 400]})
                (VObj {["maxPrice" := num 900]}) w Hf Hf2) as H.
  cbv zeta in H. split; [reflexivity|].
  unfold w2, w1. rewrite H. split; reflexivity.
Defined.

(** A session: unlock, log in, receive an update, log out. *)
Lemma session_gates_mirror_storage_witness :
  let w := Sample.world Sample.seeded [] in
  let actions := [CallUnlockSite "password123";
                  CallAdminLogin "admin@example.com" "admin123";
                  Deliver (VObj {["countdownSettings" := Sample.sale]});
                  CallAdminLogout] in
  let w1 := session [] 0 Sample.iso id actions w in
  gates_mirror_storage w
  ∧ gates_mirror_storage w1
  ∧ isUnlocked (state w1) = true
  ∧ isAdmin (state w1) = false.
Proof.
  intros w actions w1.
  assert (gates_mirror_storage w) as H0 by (split; reflexivity).
  split; [exact H0|]. split; [|split; reflexivity].
  exact (proj2 (session_gates_mirror_storage [] 0 Sample.iso id actions w) H0).
Defined.

(** Once unlocked, a rejected update and a [null] delivery do not lock. *)
Lemma session_flags_monotone_witness :
  let w := (unlockSite id "password123"
              (Sample.world Sample.seeded [None; Some Sample.offline])).2 in
  let actions := [CallUpdateCountdownSettings (state w) (VObj {["title" := VStr "Flash"]});
                  Deliver VNull] in
  isUnlocked (state w) = true
  ∧ isUnlocked (state (session [] 0 Sample.iso id actions w)) = true.
Proof.
  intros w actions.
  assert (isUnlocked (state w) = true) as Hu by reflexivity.
  split; [exact Hu|].
  exact (proj1 (session_flags_monotone [] 0 Sample.iso id actions w) Hu).
Defined.

(** Logging in and out again from a fresh world. *)
Lemma adminLogin_then_adminLogout_restores_witness :
  let w := Sample.world Sample.seeded [] in
  (adminLogout (adminLogin "admin@example.com" "admin123" w).2).2 = w.
Proof.
  intros w.
  apply adminLogin_then_adminLogout_restores; reflexivity.
Defined.
